(** * protocol/message_validator.go: validation of received messages

    A shallow embedding of the validators of [package protocol]: the clock
    drift check [validateClockValue], the one-sided check on membership
    updates and the per-kind [ValidateReceived*] functions, followed by the
    properties the specification states about them.

    Conventions.
    - A Go [uint64] is a [Z] in the range [0 <= x < 2^64]; the only unsigned
      subtraction of the file is written with its wrap-around ([sub64]).
    - A Go [string] is a sequence of bytes: [String.string], one [ascii] per
      byte; [len] is its length in bytes.
    - A Go [error] result is an [option error], [nil] being [None].
    - [strconv.ParseFloat] and the numeric values of the protobuf enum
      constants are not part of the package: the validators take them as
      parameters of the section [Validators]. *)

From Stdlib Require Import ZArith NArith List String Ascii Bool Lia.
From Stdlib Require Import Permutation.
Import ListNotations.
Local Open Scope string_scope.
Local Open Scope Z_scope.

(** ** Machine integers *)

Definition uint64_modulus : Z := 2 ^ 64.

Definition is_uint64 (x : Z) : Prop := 0 <= x < uint64_modulus.

(** [a - b] on [uint64] operands, with Go's wrap-around. *)
Definition sub64 (a b : Z) : Z := (a - b) mod uint64_modulus.

(** ** math/big, as far as [validateClockValue] uses it

    A [big.Int] is an unbounded integer: a [Z]. *)
Module big.
Definition SetUint64 (x : Z) : Z := x.
Definition Sub (x y : Z) : Z := x - y.
Definition Abs (x : Z) : Z := Z.abs x.
(** [Uint64] returns the low 64 bits of the magnitude. *)
Definition Uint64 (x : Z) : Z := Z.abs x mod uint64_modulus.
End big.

(** ** strings.TrimSpace

    [strings.TrimSpace] removes the leading and the trailing white space, as
    [unicode.IsSpace] defines it, of a UTF-8 byte string. A white-space rune
    is one of U+0009..U+000D, U+0020, U+0085, U+00A0, U+1680,
    U+2000..U+200A, U+2028, U+2029, U+202F, U+205F and U+3000; each is
    recognised here by its (unique) UTF-8 encoding, of one, two or three
    bytes. Bytes that do not decode to one of them stop the trimming. *)

Definition isSpace1 (b0 : N) : bool :=
  ((9 <=? b0) && (b0 <=? 13) || (b0 =? 32))%N.

Definition isSpace2 (b0 b1 : N) : bool :=
  ((b0 =? 0xC2) && ((b1 =? 0x85) || (b1 =? 0xA0)))%N.

Definition isSpace3 (b0 b1 b2 : N) : bool :=
  ((b0 =? 0xE1) && (b1 =? 0x9A) && (b2 =? 0x80)
   || (b0 =? 0xE2) && (b1 =? 0x80)
      && ((0x80 <=? b2) && (b2 <=? 0x8A)
          || (b2 =? 0xA8) || (b2 =? 0xA9) || (b2 =? 0xAF))
   || (b0 =? 0xE2) && (b1 =? 0x81) && (b2 =? 0x9F)
   || (b0 =? 0xE3) && (b1 =? 0x80) && (b2 =? 0x80))%N.

(** Drop the white-space runes at the front of a byte sequence. *)
Fixpoint trimLeft (l : list N) : list N :=
  match l with
  | [] => []
  | b0 :: r1 =>
      if isSpace1 b0 then trimLeft r1 else
      match r1 with
      | [] => l
      | b1 :: r2 =>
          if isSpace2 b0 b1 then trimLeft r2 else
          match r2 with
          | [] => l
          | b2 :: r3 => if isSpace3 b0 b1 b2 then trimLeft r3 else l
          end
      end
  end.

(** The same from the back, on the reversed sequence: the last byte of the
    string comes first. *)
Fixpoint trimLeftRev (l : list N) : list N :=
  match l with
  | [] => []
  | b0 :: r1 =>
      if isSpace1 b0 then trimLeftRev r1 else
      match r1 with
      | [] => l
      | b1 :: r2 =>
          if isSpace2 b1 b0 then trimLeftRev r2 else
          match r2 with
          | [] => l
          | b2 :: r3 => if isSpace3 b2 b1 b0 then trimLeftRev r3 else l
          end
      end
  end.

Definition trimRight (l : list N) : list N := rev (trimLeftRev (rev l)).

Definition bytes_of_string (s : string) : list N :=
  map N_of_ascii (list_ascii_of_string s).

Definition string_of_bytes (l : list N) : string :=
  string_of_list_ascii (map ascii_of_N l).

Definition TrimSpace (s : string) : string :=
  string_of_bytes (trimRight (trimLeft (bytes_of_string s))).

(** [len(s)] of a Go string: its number of bytes. *)
Definition len (s : string) : Z := Z.of_nat (String.length s).

(** ** Errors

    [errors.New(text)] is an error that carries its text;
    [strconv.ParseFloat] fails with a [*strconv.NumError]. *)

Record NumError : Type := mkNumError
  { Func : string;   (* the failing function, "ParseFloat" *)
    Num  : string;   (* the input *)
    Err  : string }. (* the reason: invalid syntax, value out of range *)

Inductive error : Type :=
| errors_New (text : string)
| strconv_NumError (e : NumError).

Definition nil : option error := None.

(** Guards of the validators: [if cond { return errors.New(..) }] and
    [if err := f(..); err != nil { return err }], each followed by the rest
    of the function body. *)
Notation "'when' c 'fail' e ;; k" := (if c then Some e else k)
  (at level 10, c at level 100, e at level 100, k at level 200,
   format "'[v' 'when'  c  'fail'  e  ;;  '/' k ']'").
Notation "'try' r ;; k" := (match r with Some err => Some err | None => k end)
  (at level 10, r at level 100, k at level 200,
   format "'[v' 'try'  r  ;;  '/' k ']'").

(** ** The clock check *)

(** maxWhisperDrift is how many milliseconds we allow the clock value to
    differ from whisperTimestamp *)
Definition maxWhisperDriftMs : Z := 120000.

Definition validateClockValue (clock whisperTimestamp : Z) : option error :=
  when clock =? 0 fail errors_New "clock can't be 0" ;;
  let c := big.SetUint64 clock in
  let w := big.SetUint64 whisperTimestamp in
  let result := big.Sub c w in
  let difference := big.Uint64 (big.Abs result) in
  when difference >? maxWhisperDriftMs
    fail errors_New "clock value can't be too different from whisper timestamp" ;;
  nil.

(** ** Messages

    The structs of [protobuf] and of [protocol/v1], with the fields the
    validators read. *)

Record MembershipUpdateEvent : Type := mkMembershipUpdateEvent
  { ClockValue : Z }.

Record MembershipUpdateMessage : Type := mkMembershipUpdateMessage
  { Events : list MembershipUpdateEvent }.

Record PairInstallation : Type := mkPairInstallation
  { PairInstallation_Clock : Z;
    InstallationId : string;
    DeviceType : string;
    Name : string }.

(** [Signature] is a [[]byte]: [None] is the nil slice. *)
Record SendTransaction : Type := mkSendTransaction
  { SendTransaction_Clock : Z;
    TransactionHash : string;
    Signature : option (list Byte.byte) }.

Record RequestAddressForTransaction : Type := mkRequestAddressForTransaction
  { RequestAddressForTransaction_Clock : Z;
    RequestAddressForTransaction_Value : string }.

Record RequestTransaction : Type := mkRequestTransaction
  { RequestTransaction_Clock : Z;
    RequestTransaction_Address : string;
    RequestTransaction_Value : string }.

Record AcceptRequestAddressForTransaction : Type :=
  mkAcceptRequestAddressForTransaction
  { AcceptRequestAddressForTransaction_Clock : Z;
    AcceptRequestAddressForTransaction_Id : string;
    AcceptRequestAddressForTransaction_Address : string }.

Record DeclineRequestAddressForTransaction : Type :=
  mkDeclineRequestAddressForTransaction
  { DeclineRequestAddressForTransaction_Clock : Z;
    DeclineRequestAddressForTransaction_Id : string }.

Record DeclineRequestTransaction : Type := mkDeclineRequestTransaction
  { DeclineRequestTransaction_Clock : Z;
    DeclineRequestTransaction_Id : string }.

Record StickerMessage : Type := mkStickerMessage
  { Hash : string }.

(** Modelled from the spec: the generated code of [protobuf.ChatMessage] is
    not under src/. The specification describes the payload as a nested
    structure that may be absent, from which [GetSticker] extracts the
    sticker-specific sub-message, itself possibly absent. [Payload] is a
    protobuf oneof: an interface value that is nil or holds one variant;
    the sticker variant wraps a pointer to a [StickerMessage], and
    [GetSticker] returns that pointer when the payload is the sticker
    variant and nil otherwise. *)
Inductive isChatMessage_Payload : Type :=
| ChatMessage_Sticker (Sticker : option StickerMessage)
| ChatMessage_OtherPayload.

(** [MessageType] and [ContentType] are protobuf enums: [int32] values. *)
Record ChatMessage : Type := mkChatMessage
  { ChatMessage_Clock : Z;
    Timestamp : Z;
    Text : string;
    ChatId : string;
    MessageType : Z;
    ContentType : Z;
    Payload : option isChatMessage_Payload }.

Definition GetSticker (m : ChatMessage) : option StickerMessage :=
  match Payload m with
  | Some (ChatMessage_Sticker x) => x
  | _ => None
  end.

(** ** The validators *)

Fixpoint validateEvents (events : list MembershipUpdateEvent) (timeNowMs : Z)
  : option error :=
  match events with
  | [] => nil
  | e :: rest =>
      (* We only compare in one direction for membership update as they are
         relayed without the original whisper timestamp *)
      when (ClockValue e >? timeNowMs)
           && (sub64 (ClockValue e) timeNowMs >? maxWhisperDriftMs)
        fail errors_New
               "clock value can't be too different from whisper timestamp" ;;
      validateEvents rest timeNowMs
  end.

Definition ValidateMembershipUpdateMessage
    (message : MembershipUpdateMessage) (timeNowMs : Z) : option error :=
  validateEvents (Events message) timeNowMs.

Definition ValidateReceivedPairInstallation
    (message : PairInstallation) (whisperTimestamp : Z) : option error :=
  try validateClockValue (PairInstallation_Clock message) whisperTimestamp ;;
  when len (TrimSpace (Name message)) =? 0
    fail errors_New "name can't be empty" ;;
  when len (TrimSpace (DeviceType message)) =? 0
    fail errors_New "device type can't be empty" ;;
  when len (TrimSpace (InstallationId message)) =? 0
    fail errors_New "installationId can't be empty" ;;
  nil.

Definition ValidateReceivedSendTransaction
    (message : SendTransaction) (whisperTimestamp : Z) : option error :=
  try validateClockValue (SendTransaction_Clock message) whisperTimestamp ;;
  when len (TrimSpace (TransactionHash message)) =? 0
    fail errors_New "transaction hash can't be empty" ;;
  when (match Signature message with None => true | Some _ => false end)
    fail errors_New "signature can't be nil" ;;
  nil.

Definition ValidateReceivedAcceptRequestAddressForTransaction
    (message : AcceptRequestAddressForTransaction) (whisperTimestamp : Z)
  : option error :=
  try validateClockValue
        (AcceptRequestAddressForTransaction_Clock message) whisperTimestamp ;;
  when len (AcceptRequestAddressForTransaction_Id message) =? 0
    fail errors_New "messageID can't be empty" ;;
  when len (TrimSpace (AcceptRequestAddressForTransaction_Address message)) =? 0
    fail errors_New "address can't be empty" ;;
  nil.

Definition ValidateReceivedDeclineRequestAddressForTransaction
    (message : DeclineRequestAddressForTransaction) (whisperTimestamp : Z)
  : option error :=
  try validateClockValue
        (DeclineRequestAddressForTransaction_Clock message) whisperTimestamp ;;
  when len (DeclineRequestAddressForTransaction_Id message) =? 0
    fail errors_New "messageID can't be empty" ;;
  nil.

Definition ValidateReceivedDeclineRequestTransaction
    (message : DeclineRequestTransaction) (whisperTimestamp : Z)
  : option error :=
  try validateClockValue
        (DeclineRequestTransaction_Clock message) whisperTimestamp ;;
  when len (DeclineRequestTransaction_Id message) =? 0
    fail errors_New "messageID can't be empty" ;;
  nil.

(** ** The taxonomy of failures

    The validators return errors that carry a text. The specification
    groups them in six kinds; [kind_of] is that grouping, over the texts
    that occur in the source. (It names no kind for a zero [Timestamp].) *)

Inductive ErrorKind : Type :=
| ZeroClock | ExcessiveDrift | EmptyField | MissingPayload | InvalidEnum
| ParseError.

Definition kinds : list (string * ErrorKind) :=
  [ ("clock can't be 0", ZeroClock);
    ("clock value can't be too different from whisper timestamp",
     ExcessiveDrift);
    ("name can't be empty", EmptyField);
    ("device type can't be empty", EmptyField);
    ("installationId can't be empty", EmptyField);
    ("transaction hash can't be empty", EmptyField);
    ("signature can't be nil", MissingPayload);
    ("value can't be empty", EmptyField);
    ("address can't be empty", EmptyField);
    ("messageID can't be empty", EmptyField);
    ("text can't be empty", EmptyField);
    ("chatId can't be empty", EmptyField);
    ("unknown content type", InvalidEnum);
    ("can't receive request address for transaction from others",
     InvalidEnum);
    ("unknown message type", InvalidEnum);
    ("no sticker content", MissingPayload);
    ("sticker hash not set", MissingPayload) ].

Fixpoint lookup_kind (text : string) (t : list (string * ErrorKind))
  : option ErrorKind :=
  match t with
  | [] => None
  | (s, k) :: rest => if (s =? text)%string then Some k else lookup_kind text rest
  end.

Definition kind_of (e : error) : option ErrorKind :=
  match e with
  | errors_New text => lookup_kind text kinds
  | strconv_NumError _ => Some ParseError
  end.

(** ** Reference values of the parameters

    The theorems below hold for every parser and every numbering of the
    enums. To evaluate the validators on concrete messages, the parameters
    are instantiated with the numbers of the protobuf declaration of
    [ChatMessage] and with a parser of plain decimal literals,
    [[+-] digits [. digits] [(e|E) [+-] digits]], which fails with
    [strconv.ErrSyntax] on anything else. This parser does not cover the
    other forms [strconv.ParseFloat] accepts (hexadecimal literals,
    infinities, NaN) nor its range error.

    [ParseFloat_decimal] is therefore a stand-in, not a model of
    [strconv.ParseFloat]. It differs from it on these inputs: it refuses
    "Inf", "Infinity" and "NaN", hexadecimal floats such as "0x1p-2" and
    digits separated by underscores, which Go accepts (the last with a base
    prefix); and it accepts literals out of the range of a float64, such as
    "1e309", which Go refuses with [strconv.ErrRange]. No theorem depends on
    it: it is applied only to "abc" and "1.5" and the like, plain literals
    within range or texts without a digit, where it agrees with Go. *)

Definition isDigit (c : ascii) : bool :=
  ((48 <=? N_of_ascii c) && (N_of_ascii c <=? 57))%N.

Fixpoint skipDigits (l : list ascii) : nat * list ascii :=
  match l with
  | c :: r => if isDigit c then let (n, r') := skipDigits r in (S n, r')
              else (O, l)
  | [] => (O, [])
  end.

Definition skipSign (l : list ascii) : list ascii :=
  match l with
  | c :: r => if ((c =? "+") || (c =? "-"))%char then r else l
  | [] => []
  end.

Definition decimalLiteral (s : string) : bool :=
  let (n1, l1) := skipDigits (skipSign (list_ascii_of_string s)) in
  let (n2, l2) := match l1 with
                  | c :: r => if (c =? ".")%char then skipDigits r else (O, l1)
                  | [] => (O, [])
                  end in
  match (n1 + n2)%nat with
  | O => false
  | S _ =>
      match l2 with
      | [] => true
      | c :: r =>
          if ((c =? "e") || (c =? "E"))%char then
            match skipDigits (skipSign r) with
            | (S _, []) => true
            | _ => false
            end
          else false
      end
  end.

Definition ParseFloat_decimal (s : string) : option NumError :=
  if decimalLiteral s then None
  else Some {| Func := "ParseFloat"; Num := s; Err := "invalid syntax" |}.

Module protobuf.
Definition ChatMessage_UNKNOWN_CONTENT_TYPE : Z := 0.
Definition ChatMessage_TEXT_PLAIN : Z := 1.
Definition ChatMessage_STICKER : Z := 2.
Definition ChatMessage_TRANSACTION_COMMAND : Z := 5.
Definition ChatMessage_UNKNOWN_MESSAGE_TYPE : Z := 0.
Definition ChatMessage_ONE_TO_ONE : Z := 1.
Definition ChatMessage_SYSTEM_MESSAGE_PRIVATE_GROUP : Z := 4.
End protobuf.

(** ** Messages of the scenarios *)

Definition chat_text : ChatMessage :=
  {| ChatMessage_Clock := 1000; Timestamp := 1000; Text := "hello";
     ChatId := "c1";
     MessageType := protobuf.ChatMessage_ONE_TO_ONE;
     ContentType := protobuf.ChatMessage_TEXT_PLAIN;
     Payload := None |}.

Definition chat_sticker (payload : option isChatMessage_Payload)
  : ChatMessage :=
  {| ChatMessage_Clock := 1000; Timestamp := 1000; Text := "sticker";
     ChatId := "c1";
     MessageType := protobuf.ChatMessage_ONE_TO_ONE;
     ContentType := protobuf.ChatMessage_STICKER;
     Payload := payload |}.

Definition chat_sticker_no_payload : ChatMessage := chat_sticker None.

Definition chat_sticker_no_sticker : ChatMessage :=
  chat_sticker (Some (ChatMessage_Sticker None)).

Definition chat_sticker_no_hash : ChatMessage :=
  chat_sticker (Some (ChatMessage_Sticker (Some {| Hash := "" |}))).

Definition chat_sticker_complete : ChatMessage :=
  chat_sticker (Some (ChatMessage_Sticker (Some {| Hash := "0xbeef" |}))).

Definition chat_blank_id : ChatMessage :=
  {| ChatMessage_Clock := 1000; Timestamp := 1000; Text := "hello";
     ChatId := "  ";
     MessageType := protobuf.ChatMessage_ONE_TO_ONE;
     ContentType := protobuf.ChatMessage_TEXT_PLAIN;
     Payload := None |}.

Definition request_abc_no_address : RequestTransaction :=
  {| RequestTransaction_Clock := 1000;
     RequestTransaction_Address := "";
     RequestTransaction_Value := "abc" |}.

Definition request_address_abc : RequestAddressForTransaction :=
  {| RequestAddressForTransaction_Clock := 1000;
     RequestAddressForTransaction_Value := "abc" |}.

Definition request_address_1_5 : RequestAddressForTransaction :=
  {| RequestAddressForTransaction_Clock := 1000;
     RequestAddressForTransaction_Value := "1.5" |}.

Definition decline_blank_id : DeclineRequestTransaction :=
  {| DeclineRequestTransaction_Clock := 1000;
     DeclineRequestTransaction_Id := "  " |}.

Definition membership_mixed : MembershipUpdateMessage :=
  {| Events := [ {| ClockValue := 0 |};
                 {| ClockValue := 1000 |};
                 {| ClockValue := 10200000 |} ] |}.

Definition membership_empty : MembershipUpdateMessage :=
  {| Events := [] |}.

Section Validators.

(** The error result of [strconv.ParseFloat(s, 64)]. *)
Variable ParseFloat : string -> option NumError.

(** The enum constants the chat validator compares with. *)
Variables ChatMessage_UNKNOWN_CONTENT_TYPE
          ChatMessage_TRANSACTION_COMMAND
          ChatMessage_STICKER : Z.
Variables ChatMessage_UNKNOWN_MESSAGE_TYPE
          ChatMessage_SYSTEM_MESSAGE_PRIVATE_GROUP : Z.

Definition parseFloatErr (s : string) : option error :=
  match ParseFloat s with
  | Some e => Some (strconv_NumError e)
  | None => nil
  end.

Definition ValidateReceivedRequestAddressForTransaction
    (message : RequestAddressForTransaction) (whisperTimestamp : Z)
  : option error :=
  try validateClockValue
        (RequestAddressForTransaction_Clock message) whisperTimestamp ;;
  when len (TrimSpace (RequestAddressForTransaction_Value message)) =? 0
    fail errors_New "value can't be empty" ;;
  try parseFloatErr (RequestAddressForTransaction_Value message) ;;
  nil.

Definition ValidateReceivedRequestTransaction
    (message : RequestTransaction) (whisperTimestamp : Z) : option error :=
  try validateClockValue (RequestTransaction_Clock message) whisperTimestamp ;;
  when len (TrimSpace (RequestTransaction_Value message)) =? 0
    fail errors_New "value can't be empty" ;;
  when len (TrimSpace (RequestTransaction_Address message)) =? 0
    fail errors_New "address can't be empty" ;;
  try parseFloatErr (RequestTransaction_Value message) ;;
  nil.

Definition ValidateReceivedChatMessage
    (message : ChatMessage) (whisperTimestamp : Z) : option error :=
  try validateClockValue (ChatMessage_Clock message) whisperTimestamp ;;
  when Timestamp message =? 0
    fail errors_New "timestamp can't be 0" ;;
  when len (TrimSpace (Text message)) =? 0
    fail errors_New "text can't be empty" ;;
  when len (ChatId message) =? 0
    fail errors_New "chatId can't be empty" ;;
  when ContentType message =? ChatMessage_UNKNOWN_CONTENT_TYPE
    fail errors_New "unknown content type" ;;
  when ContentType message =? ChatMessage_TRANSACTION_COMMAND
    fail errors_New
           "can't receive request address for transaction from others" ;;
  when (MessageType message =? ChatMessage_UNKNOWN_MESSAGE_TYPE)
       || (MessageType message =? ChatMessage_SYSTEM_MESSAGE_PRIVATE_GROUP)
    fail errors_New "unknown message type" ;;
  if ContentType message =? ChatMessage_STICKER then
    when (match Payload message with None => true | Some _ => false end)
      fail errors_New "no sticker content" ;;
    match GetSticker message with
    | None => Some (errors_New "no sticker content")
    | Some sticker =>
        when len (Hash sticker) =? 0
          fail errors_New "sticker hash not set" ;;
        nil
    end
  else nil.

(** A call of one of the validators, and what it returns. *)
Inductive Call : Type :=
| call_validateClockValue (clock whisperTimestamp : Z)
| call_MembershipUpdateMessage (m : MembershipUpdateMessage) (t : Z)
| call_PairInstallation (m : PairInstallation) (t : Z)
| call_SendTransaction (m : SendTransaction) (t : Z)
| call_RequestAddressForTransaction (m : RequestAddressForTransaction) (t : Z)
| call_RequestTransaction (m : RequestTransaction) (t : Z)
| call_AcceptRequestAddressForTransaction
    (m : AcceptRequestAddressForTransaction) (t : Z)
| call_DeclineRequestAddressForTransaction
    (m : DeclineRequestAddressForTransaction) (t : Z)
| call_DeclineRequestTransaction (m : DeclineRequestTransaction) (t : Z)
| call_ChatMessage (m : ChatMessage) (t : Z).

Definition returns (c : Call) : option error :=
  match c with
  | call_validateClockValue clock t => validateClockValue clock t
  | call_MembershipUpdateMessage m t => ValidateMembershipUpdateMessage m t
  | call_PairInstallation m t => ValidateReceivedPairInstallation m t
  | call_SendTransaction m t => ValidateReceivedSendTransaction m t
  | call_RequestAddressForTransaction m t =>
      ValidateReceivedRequestAddressForTransaction m t
  | call_RequestTransaction m t => ValidateReceivedRequestTransaction m t
  | call_AcceptRequestAddressForTransaction m t =>
      ValidateReceivedAcceptRequestAddressForTransaction m t
  | call_DeclineRequestAddressForTransaction m t =>
      ValidateReceivedDeclineRequestAddressForTransaction m t
  | call_DeclineRequestTransaction m t =>
      ValidateReceivedDeclineRequestTransaction m t
  | call_ChatMessage m t => ValidateReceivedChatMessage m t
  end.

(** An [error] is a pointer: [errors.New] and [strconv.ParseFloat] allocate
    the error they return, so that two failing calls never return the same
    pointer. The state of the program, as far as a validator can touch it,
    is the sequence of the error objects allocated so far; an address is an
    index in it. A validator reads nothing of that state, and the only
    thing it adds is the error object it returns. *)
Definition heap : Type := list error.

Definition alloc (e : error) (h : heap) : nat * heap :=
  (List.length h, (h ++ [e])%list).

Definition deref (h : heap) (a : nat) : option error := nth_error h a.

(** A call in a state, as the result of the pure validator determines it:
    the pointer returned ([None] is nil), and the state after the call.
    That the validators, run in a state, behave so is [exec_call] below. *)
Definition call (c : Call) (h : heap) : option nat * heap :=
  match returns c with
  | Some e => let (a, h') := alloc e h in (Some a, h')
  | None => (None, h)
  end.

(** The verdict of a call: success, or the reason of the failure. *)
Definition verdict (r : option nat * heap) : option error :=
  match fst r with
  | Some a => deref (snd r) a
  | None => nil
  end.

(** ** The validators as state transformers

    In Go a validator runs in the state of the program. The embedding
    above leaves that state out; here each validator is written once more,
    statement by statement, as a function from the state before the call
    to the pointer returned and the state after the call. The message and
    the timestamp are the values the caller passes. [errors.New] allocates
    an error object and returns its address; [strconv.ParseFloat] does the
    same with its [NumError] when it fails. The source has no other access
    to the state: no variable of the package is read or written ([maxWhisperDriftMs]
    is a constant). *)
Definition M (A : Type) : Type := heap -> A * heap.

Definition ret {A : Type} (a : A) : M A := fun h => (a, h).

Definition bind {A B : Type} (m : M A) (f : A -> M B) : M B :=
  fun h => let (a, h') := m h in f a h'.

(** [return errors.New(text)] *)
Definition return_New (text : string) : M (option nat) :=
  fun h => let (a, h') := alloc (errors_New text) h in (Some a, h').

(** [_, err := strconv.ParseFloat(s, 64)] *)
Definition st_ParseFloat (s : string) : M (option nat) :=
  fun h => match ParseFloat s with
           | Some e => let (a, h') := alloc (strconv_NumError e) h in
                       (Some a, h')
           | None => (None, h)
           end.

Notation "'when' c 'new' text ;;; k" :=
  (if c then return_New text else k)
  (at level 10, c at level 100, text at level 100, k at level 200,
   format "'[v' 'when'  c  'new'  text  ;;;  '/' k ']'").
Notation "'try' r ;;; k" :=
  (bind r (fun err => match err with
                      | Some e => ret (Some e)
                      | None => k
                      end))
  (at level 10, r at level 100, k at level 200,
   format "'[v' 'try'  r  ;;;  '/' k ']'").

Definition st_validateClockValue (clock whisperTimestamp : Z)
  : M (option nat) :=
  when clock =? 0 new "clock can't be 0" ;;;
  let c := big.SetUint64 clock in
  let w := big.SetUint64 whisperTimestamp in
  let result := big.Sub c w in
  let difference := big.Uint64 (big.Abs result) in
  when difference >? maxWhisperDriftMs
    new "clock value can't be too different from whisper timestamp" ;;;
  ret None.

Fixpoint st_validateEvents (events : list MembershipUpdateEvent)
         (timeNowMs : Z) : M (option nat) :=
  match events with
  | [] => ret None
  | e :: rest =>
      when (ClockValue e >? timeNowMs)
           && (sub64 (ClockValue e) timeNowMs >? maxWhisperDriftMs)
        new "clock value can't be too different from whisper timestamp" ;;;
      st_validateEvents rest timeNowMs
  end.

Definition st_ValidateMembershipUpdateMessage
    (message : MembershipUpdateMessage) (timeNowMs : Z) : M (option nat) :=
  st_validateEvents (Events message) timeNowMs.

Definition st_ValidateReceivedPairInstallation
    (message : PairInstallation) (whisperTimestamp : Z) : M (option nat) :=
  try st_validateClockValue (PairInstallation_Clock message)
        whisperTimestamp ;;;
  when len (TrimSpace (Name message)) =? 0
    new "name can't be empty" ;;;
  when len (TrimSpace (DeviceType message)) =? 0
    new "device type can't be empty" ;;;
  when len (TrimSpace (InstallationId message)) =? 0
    new "installationId can't be empty" ;;;
  ret None.

Definition st_ValidateReceivedSendTransaction
    (message : SendTransaction) (whisperTimestamp : Z) : M (option nat) :=
  try st_validateClockValue (SendTransaction_Clock message)
        whisperTimestamp ;;;
  when len (TrimSpace (TransactionHash message)) =? 0
    new "transaction hash can't be empty" ;;;
  when (match Signature message with None => true | Some _ => false end)
    new "signature can't be nil" ;;;
  ret None.

Definition st_ValidateReceivedRequestAddressForTransaction
    (message : RequestAddressForTransaction) (whisperTimestamp : Z)
  : M (option nat) :=
  try st_validateClockValue
        (RequestAddressForTransaction_Clock message) whisperTimestamp ;;;
  when len (TrimSpace (RequestAddressForTransaction_Value message)) =? 0
    new "value can't be empty" ;;;
  try st_ParseFloat (RequestAddressForTransaction_Value message) ;;;
  ret None.

Definition st_ValidateReceivedRequestTransaction
    (message : RequestTransaction) (whisperTimestamp : Z) : M (option nat) :=
  try st_validateClockValue (RequestTransaction_Clock message)
        whisperTimestamp ;;;
  when len (TrimSpace (RequestTransaction_Value message)) =? 0
    new "value can't be empty" ;;;
  when len (TrimSpace (RequestTransaction_Address message)) =? 0
    new "address can't be empty" ;;;
  try st_ParseFloat (RequestTransaction_Value message) ;;;
  ret None.

Definition st_ValidateReceivedAcceptRequestAddressForTransaction
    (message : AcceptRequestAddressForTransaction) (whisperTimestamp : Z)
  : M (option nat) :=
  try st_validateClockValue
        (AcceptRequestAddressForTransaction_Clock message) whisperTimestamp ;;;
  when len (AcceptRequestAddressForTransaction_Id message) =? 0
    new "messageID can't be empty" ;;;
  when len (TrimSpace (AcceptRequestAddressForTransaction_Address message)) =? 0
    new "address can't be empty" ;;;
  ret None.

Definition st_ValidateReceivedDeclineRequestAddressForTransaction
    (message : DeclineRequestAddressForTransaction) (whisperTimestamp : Z)
  : M (option nat) :=
  try st_validateClockValue
        (DeclineRequestAddressForTransaction_Clock message) whisperTimestamp ;;;
  when len (DeclineRequestAddressForTransaction_Id message) =? 0
    new "messageID can't be empty" ;;;
  ret None.

Definition st_ValidateReceivedDeclineRequestTransaction
    (message : DeclineRequestTransaction) (whisperTimestamp : Z)
  : M (option nat) :=
  try st_validateClockValue
        (DeclineRequestTransaction_Clock message) whisperTimestamp ;;;
  when len (DeclineRequestTransaction_Id message) =? 0
    new "messageID can't be empty" ;;;
  ret None.

Definition st_ValidateReceivedChatMessage
    (message : ChatMessage) (whisperTimestamp : Z) : M (option nat) :=
  try st_validateClockValue (ChatMessage_Clock message) whisperTimestamp ;;;
  when Timestamp message =? 0
    new "timestamp can't be 0" ;;;
  when len (TrimSpace (Text message)) =? 0
    new "text can't be empty" ;;;
  when len (ChatId message) =? 0
    new "chatId can't be empty" ;;;
  when ContentType message =? ChatMessage_UNKNOWN_CONTENT_TYPE
    new "unknown content type" ;;;
  when ContentType message =? ChatMessage_TRANSACTION_COMMAND
    new "can't receive request address for transaction from others" ;;;
  when (MessageType message =? ChatMessage_UNKNOWN_MESSAGE_TYPE)
       || (MessageType message =? ChatMessage_SYSTEM_MESSAGE_PRIVATE_GROUP)
    new "unknown message type" ;;;
  if ContentType message =? ChatMessage_STICKER then
    when (match Payload message with None => true | Some _ => false end)
      new "no sticker content" ;;;
    match GetSticker message with
    | None => return_New "no sticker content"
    | Some sticker =>
        when len (Hash sticker) =? 0
          new "sticker hash not set" ;;;
        ret None
    end
  else ret None.

(** A call of a validator in a state. *)
Definition exec (c : Call) : M (option nat) :=
  match c with
  | call_validateClockValue clock t => st_validateClockValue clock t
  | call_MembershipUpdateMessage m t => st_ValidateMembershipUpdateMessage m t
  | call_PairInstallation m t => st_ValidateReceivedPairInstallation m t
  | call_SendTransaction m t => st_ValidateReceivedSendTransaction m t
  | call_RequestAddressForTransaction m t =>
      st_ValidateReceivedRequestAddressForTransaction m t
  | call_RequestTransaction m t => st_ValidateReceivedRequestTransaction m t
  | call_AcceptRequestAddressForTransaction m t =>
      st_ValidateReceivedAcceptRequestAddressForTransaction m t
  | call_DeclineRequestAddressForTransaction m t =>
      st_ValidateReceivedDeclineRequestAddressForTransaction m t
  | call_DeclineRequestTransaction m t =>
      st_ValidateReceivedDeclineRequestTransaction m t
  | call_ChatMessage m t => st_ValidateReceivedChatMessage m t
  end.

(** The clock and the timestamp a [ValidateReceived*] call hands to
    [validateClockValue]: [message.Clock] and [whisperTimestamp]. The clock
    check itself and the membership validator make no such call. *)
Definition received_clock (c : Call) : option (Z * Z) :=
  match c with
  | call_validateClockValue _ _ => None
  | call_MembershipUpdateMessage _ _ => None
  | call_PairInstallation m t => Some (PairInstallation_Clock m, t)
  | call_SendTransaction m t => Some (SendTransaction_Clock m, t)
  | call_RequestAddressForTransaction m t =>
      Some (RequestAddressForTransaction_Clock m, t)
  | call_RequestTransaction m t => Some (RequestTransaction_Clock m, t)
  | call_AcceptRequestAddressForTransaction m t =>
      Some (AcceptRequestAddressForTransaction_Clock m, t)
  | call_DeclineRequestAddressForTransaction m t =>
      Some (DeclineRequestAddressForTransaction_Clock m, t)
  | call_DeclineRequestTransaction m t =>
      Some (DeclineRequestTransaction_Clock m, t)
  | call_ChatMessage m t => Some (ChatMessage_Clock m, t)
  end.

(** ** Vocabulary of the statements *)

Definition errZeroClock : error := errors_New "clock can't be 0".
Definition errClockDrift : error :=
  errors_New "clock value can't be too different from whisper timestamp".

(** The call fails, and its error is of kind [k]. *)
Definition fails_with (r : option error) (k : ErrorKind) : Prop :=
  exists e, r = Some e /\ kind_of e = Some k.

(** An event whose clock is ahead of the reference by more than the
    allowed drift. *)
Definition far_ahead (reference : Z) (e : MembershipUpdateEvent) : Prop :=
  ClockValue e > reference /\ ClockValue e - reference > 120000.

(** The checks of [ValidateReceivedChatMessage] that come before the
    enum checks, and the enum checks. *)
Definition chat_fields_ok (m : ChatMessage) (reference : Z) : Prop :=
  validateClockValue (ChatMessage_Clock m) reference = nil
  /\ Timestamp m <> 0
  /\ len (TrimSpace (Text m)) <> 0
  /\ len (ChatId m) <> 0.

Definition chat_enums_ok (m : ChatMessage) : Prop :=
  ContentType m <> ChatMessage_UNKNOWN_CONTENT_TYPE
  /\ ContentType m <> ChatMessage_TRANSACTION_COMMAND
  /\ MessageType m <> ChatMessage_UNKNOWN_MESSAGE_TYPE
  /\ MessageType m <> ChatMessage_SYSTEM_MESSAGE_PRIVATE_GROUP.

(** * Properties *)

(** ** The clock check *)

Lemma difference_exact (clock reference : Z) :
  is_uint64 clock -> is_uint64 reference ->
  big.Uint64 (big.Abs (big.Sub (big.SetUint64 clock)
                               (big.SetUint64 reference)))
  = Z.abs (clock - reference).
Proof.
  unfold is_uint64, big.Uint64, big.Abs, big.Sub, big.SetUint64.
  intros Hc Hr. rewrite Z.abs_idemp.
  apply Z.mod_small. lia.
Qed.

Lemma validateClockValue_cases (clock reference : Z) :
  is_uint64 clock -> is_uint64 reference ->
  validateClockValue clock reference =
    if clock =? 0 then Some errZeroClock
    else if Z.abs (clock - reference) >? maxWhisperDriftMs
         then Some errClockDrift
         else nil.
Proof.
  intros Hc Hr. unfold validateClockValue.
  cbv zeta. rewrite (difference_exact _ _ Hc Hr). reflexivity.
Qed.

Lemma kind_errZeroClock : kind_of errZeroClock = Some ZeroClock.
Proof. reflexivity. Qed.

Lemma kind_errClockDrift : kind_of errClockDrift = Some ExcessiveDrift.
Proof. reflexivity. Qed.

Lemma fails_with_Some (e : error) (k : ErrorKind) :
  fails_with (Some e) k <-> kind_of e = Some k.
Proof.
  unfold fails_with. split.
  - intros [e' [He Hk]]. injection He as <-. exact Hk.
  - intros Hk. exists e. split; [reflexivity | exact Hk].
Qed.

Lemma fails_with_nil (k : ErrorKind) : ~ fails_with nil k.
Proof. intros [e [He _]]. discriminate He. Qed.

(** C1. On unsigned 64-bit operands, [validateClockValue] fails with
    ZeroClock exactly when the clock is 0; otherwise it fails with
    ExcessiveDrift exactly when the distance [|clock - reference|], taken
    over the integers, exceeds 120000; in every other case, a distance of
    exactly 120000 included, it succeeds. *)
Theorem validateClockValue_spec (clock reference : Z) :
  is_uint64 clock -> is_uint64 reference ->
  (fails_with (validateClockValue clock reference) ZeroClock
     <-> clock = 0)
  /\ (fails_with (validateClockValue clock reference) ExcessiveDrift
     <-> clock <> 0 /\ Z.abs (clock - reference) > 120000)
  /\ (validateClockValue clock reference = nil
     <-> clock <> 0 /\ Z.abs (clock - reference) <= 120000).
Proof.
  intros Hc Hr. rewrite (validateClockValue_cases _ _ Hc Hr).
  unfold maxWhisperDriftMs.
  destruct (Z.eqb_spec clock 0) as [E0 | N0].
  - rewrite !fails_with_Some, kind_errZeroClock.
    split; [| split]; split; intros H;
      try exact E0; try reflexivity; try discriminate H;
      destruct H as [H _]; contradiction.
  - rewrite Z.gtb_ltb.
    destruct (Z.ltb_spec 120000 (Z.abs (clock - reference))) as [Far | Near].
    + rewrite !fails_with_Some, kind_errClockDrift.
      split; [| split]; split; intros H;
        try discriminate H; try contradiction; try reflexivity;
        try (split; [exact N0 | lia]); lia.
    + split; [| split]; split; intros H;
        try (exfalso; exact (fails_with_nil _ H));
        try contradiction; try reflexivity;
        try (split; [exact N0 | lia]); lia.
Qed.

(** ** Membership updates *)

Lemma far_ahead_check (e : MembershipUpdateEvent) (reference : Z) :
  is_uint64 (ClockValue e) -> is_uint64 reference ->
  (ClockValue e >? reference)
  && (sub64 (ClockValue e) reference >? maxWhisperDriftMs) = true
  <-> far_ahead reference e.
Proof.
  unfold is_uint64, far_ahead, sub64, maxWhisperDriftMs. intros He Hr.
  rewrite andb_true_iff, !Z.gtb_ltb, !Z.ltb_lt. split.
  - intros [Hgt Hd]. rewrite Z.mod_small in Hd by lia. lia.
  - intros [Hgt Hd]. rewrite Z.mod_small by lia. lia.
Qed.

Lemma validateEvents_cases (events : list MembershipUpdateEvent)
      (reference : Z) :
  is_uint64 reference ->
  Forall (fun e => is_uint64 (ClockValue e)) events ->
  (Exists (far_ahead reference) events
   /\ validateEvents events reference = Some errClockDrift)
  \/ (~ Exists (far_ahead reference) events
      /\ validateEvents events reference = nil).
Proof.
  intros Hr. induction 1 as [| e rest He Hrest IH]; simpl.
  - right. split; [| reflexivity]. intros H. inversion H.
  - pose proof (far_ahead_check e reference He Hr) as Hchk.
    destruct ((ClockValue e >? reference)
              && (sub64 (ClockValue e) reference >? maxWhisperDriftMs)).
    + left. split; [| reflexivity]. apply Exists_cons_hd.
      apply Hchk. reflexivity.
    + destruct IH as [[Hex Hv] | [Hnex Hv]].
      * left. split; [apply Exists_cons_tl; exact Hex | exact Hv].
      * right. split; [| exact Hv]. intros H.
        apply Exists_cons in H. destruct H as [H | H].
        -- apply Hchk in H. discriminate H.
        -- exact (Hnex H).
Qed.

Lemma behind_not_far_ahead (reference : Z)
      (events : list MembershipUpdateEvent) :
  Forall (fun e => ClockValue e <= reference) events ->
  ~ Exists (far_ahead reference) events.
Proof.
  intros Hall Hex. apply Exists_exists in Hex.
  destruct Hex as [e [Hin [Hgt _]]].
  rewrite Forall_forall in Hall. specialize (Hall e Hin). lia.
Qed.

(** C2. On unsigned 64-bit values, [ValidateMembershipUpdateMessage] fails
    with ExcessiveDrift exactly when some event of the sequence has a clock
    greater than the reference by more than 120000, and succeeds otherwise:
    events at or behind the reference are never rejected, and there is no
    zero-clock failure. *)
Theorem ValidateMembershipUpdateMessage_spec
        (m : MembershipUpdateMessage) (reference : Z) :
  is_uint64 reference ->
  Forall (fun e => is_uint64 (ClockValue e)) (Events m) ->
  (fails_with (ValidateMembershipUpdateMessage m reference) ExcessiveDrift
     <-> Exists (far_ahead reference) (Events m))
  /\ (ValidateMembershipUpdateMessage m reference = nil
     <-> ~ Exists (far_ahead reference) (Events m))
  /\ (Forall (fun e => ClockValue e <= reference) (Events m) ->
      ValidateMembershipUpdateMessage m reference = nil)
  /\ ~ fails_with (ValidateMembershipUpdateMessage m reference) ZeroClock.
Proof.
  intros Hr Hev. unfold ValidateMembershipUpdateMessage.
  assert (Hbehind := behind_not_far_ahead reference (Events m)).
  destruct (validateEvents_cases (Events m) reference Hr Hev)
    as [[Hex Hv] | [Hnex Hv]]; rewrite Hv.
  - rewrite !fails_with_Some, kind_errClockDrift.
    split; [| split; [| split]].
    + split; intros _; [exact Hex | reflexivity].
    + split; intros H; [discriminate H | contradiction].
    + intros Hall. exfalso. exact (Hbehind Hall Hex).
    + discriminate.
  - split; [| split; [| split]].
    + split; intros H; [exfalso; exact (fails_with_nil _ H) | contradiction].
    + split; intros _; [exact Hnex | reflexivity].
    + intros _. reflexivity.
    + apply fails_with_nil.
Qed.

(** C9. A membership update without events is accepted, whatever the
    reference timestamp is. *)
Theorem ValidateMembershipUpdateMessage_no_events
        (m : MembershipUpdateMessage) (reference : Z) :
  Events m = [] -> ValidateMembershipUpdateMessage m reference = nil.
Proof.
  intros Hnone. unfold ValidateMembershipUpdateMessage.
  rewrite Hnone. reflexivity.
Qed.

(** ** Chat messages *)

(** Rewrite the guards whose outcome the context settles. *)
Ltac settle_guards :=
  repeat match goal with
    | H : ?x <> ?y |- context [?x =? ?y] =>
        rewrite (proj2 (Z.eqb_neq x y) H)
    | H : ?x = ?y |- context [?x =? ?y] =>
        rewrite (proj2 (Z.eqb_eq x y) H)
    | H : validateClockValue ?c ?t = _ |- context [validateClockValue ?c ?t] =>
        rewrite H
    end.

(** After the clock and field checks, the chat validator is its enum and
    sticker checks. *)
Lemma chat_after_fields (m : ChatMessage) (reference : Z) :
  chat_fields_ok m reference ->
  ValidateReceivedChatMessage m reference =
    (when ContentType m =? ChatMessage_UNKNOWN_CONTENT_TYPE
       fail errors_New "unknown content type" ;;
     when ContentType m =? ChatMessage_TRANSACTION_COMMAND
       fail errors_New
              "can't receive request address for transaction from others" ;;
     when (MessageType m =? ChatMessage_UNKNOWN_MESSAGE_TYPE)
          || (MessageType m =? ChatMessage_SYSTEM_MESSAGE_PRIVATE_GROUP)
       fail errors_New "unknown message type" ;;
     if ContentType m =? ChatMessage_STICKER then
       match Payload m with
       | None => Some (errors_New "no sticker content")
       | Some _ =>
           match GetSticker m with
           | None => Some (errors_New "no sticker content")
           | Some sticker =>
               when len (Hash sticker) =? 0
                 fail errors_New "sticker hash not set" ;;
               nil
           end
       end
     else nil).
Proof.
  intros (Hclock & Htime & Htext & Hchat).
  unfold ValidateReceivedChatMessage. settle_guards.
  destruct (Payload m); reflexivity.
Qed.

(** With the enum checks passed as well, only the sticker checks remain. *)
Lemma chat_after_enums (m : ChatMessage) (reference : Z) :
  chat_fields_ok m reference -> chat_enums_ok m ->
  ValidateReceivedChatMessage m reference =
    if ContentType m =? ChatMessage_STICKER then
      match Payload m with
      | None => Some (errors_New "no sticker content")
      | Some _ =>
          match GetSticker m with
          | None => Some (errors_New "no sticker content")
          | Some sticker =>
              when len (Hash sticker) =? 0
                fail errors_New "sticker hash not set" ;;
              nil
          end
      end
    else nil.
Proof.
  intros Hfields (Hc1 & Hc2 & Hm1 & Hm2).
  rewrite (chat_after_fields _ _ Hfields). settle_guards. reflexivity.
Qed.

(** The sticker checks never fail with InvalidEnum. *)
Lemma sticker_checks_not_InvalidEnum (m : ChatMessage) :
  ~ fails_with
      (if ContentType m =? ChatMessage_STICKER then
         match Payload m with
         | None => Some (errors_New "no sticker content")
         | Some _ =>
             match GetSticker m with
             | None => Some (errors_New "no sticker content")
             | Some sticker =>
                 when len (Hash sticker) =? 0
                   fail errors_New "sticker hash not set" ;;
                 nil
             end
         end
       else nil) InvalidEnum.
Proof.
  destruct (ContentType m =? ChatMessage_STICKER);
    [| apply fails_with_nil].
  destruct (Payload m);
    [| rewrite fails_with_Some; discriminate].
  destruct (GetSticker m) as [sticker |];
    [| rewrite fails_with_Some; discriminate].
  destruct (len (Hash sticker) =? 0);
    [rewrite fails_with_Some; discriminate | apply fails_with_nil].
Qed.

(** C3. For a chat message that passes the clock check and has a nonzero
    Timestamp, a non-blank Text and a non-empty ChatId, the validator fails
    with InvalidEnum exactly when the content type is UNKNOWN_CONTENT_TYPE
    or TRANSACTION_COMMAND, or the message type is UNKNOWN_MESSAGE_TYPE or
    SYSTEM_MESSAGE_PRIVATE_GROUP. *)
Theorem ValidateReceivedChatMessage_InvalidEnum
        (m : ChatMessage) (reference : Z) :
  chat_fields_ok m reference ->
  fails_with (ValidateReceivedChatMessage m reference) InvalidEnum
  <-> ContentType m = ChatMessage_UNKNOWN_CONTENT_TYPE
      \/ ContentType m = ChatMessage_TRANSACTION_COMMAND
      \/ MessageType m = ChatMessage_UNKNOWN_MESSAGE_TYPE
      \/ MessageType m = ChatMessage_SYSTEM_MESSAGE_PRIVATE_GROUP.
Proof.
  intros Hfields. rewrite (chat_after_fields _ _ Hfields).
  destruct (Z.eqb_spec (ContentType m) ChatMessage_UNKNOWN_CONTENT_TYPE)
    as [Ec1 | Nc1].
  { rewrite fails_with_Some. split; [left; exact Ec1 | reflexivity]. }
  destruct (Z.eqb_spec (ContentType m) ChatMessage_TRANSACTION_COMMAND)
    as [Ec2 | Nc2].
  { rewrite fails_with_Some. split; [right; left; exact Ec2 | reflexivity]. }
  destruct (Z.eqb_spec (MessageType m) ChatMessage_UNKNOWN_MESSAGE_TYPE)
    as [Em1 | Nm1].
  { cbn [orb]. rewrite fails_with_Some.
    split; [right; right; left; exact Em1 | reflexivity]. }
  destruct (Z.eqb_spec (MessageType m)
                       ChatMessage_SYSTEM_MESSAGE_PRIVATE_GROUP)
    as [Em2 | Nm2].
  { cbn [orb]. rewrite fails_with_Some.
    split; [right; right; right; exact Em2 | reflexivity]. }
  cbn [orb]. split.
  - intros H. exfalso. exact (sticker_checks_not_InvalidEnum m H).
  - intros [H | [H | [H | H]]]; contradiction.
Qed.

(** C10. A chat message whose content type is not STICKER and which passes
    the clock, Timestamp, Text, ChatId, content-type and message-type checks
    is accepted, whether or not it has a payload. *)
Theorem ValidateReceivedChatMessage_payload_optional
        (m : ChatMessage) (reference : Z) :
  chat_fields_ok m reference -> chat_enums_ok m ->
  ContentType m <> ChatMessage_STICKER ->
  ValidateReceivedChatMessage m reference = nil.
Proof.
  intros Hfields Henums Hsticker.
  rewrite (chat_after_enums _ _ Hfields Henums).
  settle_guards. reflexivity.
Qed.

(** C4 (amended). For a chat message with content type STICKER that passes
    all the preceding checks: an absent payload and a payload without the
    sticker sub-message both fail with the reason "no sticker content"; a
    sticker whose hash is empty fails with the reason "sticker hash not
    set", which differs from the former; with the three layers present the
    message is accepted. *)
Theorem ValidateReceivedChatMessage_sticker
        (m : ChatMessage) (reference : Z) :
  chat_fields_ok m reference -> chat_enums_ok m ->
  ContentType m = ChatMessage_STICKER ->
  (Payload m = None ->
   ValidateReceivedChatMessage m reference
   = Some (errors_New "no sticker content"))
  /\ (Payload m <> None -> GetSticker m = None ->
      ValidateReceivedChatMessage m reference
      = Some (errors_New "no sticker content"))
  /\ (forall sticker, GetSticker m = Some sticker ->
      len (Hash sticker) = 0 ->
      ValidateReceivedChatMessage m reference
      = Some (errors_New "sticker hash not set"))
  /\ (forall sticker, GetSticker m = Some sticker ->
      len (Hash sticker) <> 0 ->
      ValidateReceivedChatMessage m reference = nil)
  /\ errors_New "no sticker content" <> errors_New "sticker hash not set".
Proof.
  intros Hfields Henums Hsticker.
  rewrite (chat_after_enums _ _ Hfields Henums). settle_guards.
  split; [| split; [| split; [| split]]].
  - intros Hp. rewrite Hp. reflexivity.
  - intros Hp Hs. rewrite Hs. destruct (Payload m); [reflexivity | contradiction].
  - intros sticker Hs Hh. rewrite Hs. settle_guards.
    unfold GetSticker in Hs. destruct (Payload m); [reflexivity | discriminate Hs].
  - intros sticker Hs Hh. rewrite Hs. settle_guards.
    unfold GetSticker in Hs. destruct (Payload m); [reflexivity | discriminate Hs].
  - discriminate.
Qed.

(** ** Transactions *)

(** C5 (amended). For a RequestTransaction message that passes the clock
    check, the field checks are applied in the order: Value non-blank,
    Address non-blank, Value parses; the first failing check gives the
    error. A blank Address is therefore reported before the Value is
    parsed. *)
Theorem ValidateReceivedRequestTransaction_order
        (m : RequestTransaction) (reference : Z) :
  validateClockValue (RequestTransaction_Clock m) reference = nil ->
  (len (TrimSpace (RequestTransaction_Value m)) = 0 ->
   ValidateReceivedRequestTransaction m reference
   = Some (errors_New "value can't be empty"))
  /\ (len (TrimSpace (RequestTransaction_Value m)) <> 0 ->
      len (TrimSpace (RequestTransaction_Address m)) = 0 ->
      ValidateReceivedRequestTransaction m reference
      = Some (errors_New "address can't be empty"))
  /\ (len (TrimSpace (RequestTransaction_Value m)) <> 0 ->
      len (TrimSpace (RequestTransaction_Address m)) <> 0 ->
      forall e, ParseFloat (RequestTransaction_Value m) = Some e ->
      ValidateReceivedRequestTransaction m reference
      = Some (strconv_NumError e))
  /\ (len (TrimSpace (RequestTransaction_Value m)) <> 0 ->
      len (TrimSpace (RequestTransaction_Address m)) <> 0 ->
      ParseFloat (RequestTransaction_Value m) = None ->
      ValidateReceivedRequestTransaction m reference = nil).
Proof.
  intros Hclock. unfold ValidateReceivedRequestTransaction, parseFloatErr.
  settle_guards. split; [| split; [| split]].
  - intros Hv. settle_guards. reflexivity.
  - intros Hv Ha. settle_guards. reflexivity.
  - intros Hv Ha e He. settle_guards. rewrite He. reflexivity.
  - intros Hv Ha He. settle_guards. rewrite He. reflexivity.
Qed.

(** C6. For a RequestAddressForTransaction message that passes the clock
    check and has a non-blank Value: when the Value does not parse, the
    validator returns the parser's own error, of kind ParseError, and not
    an error made from a text of the validator; when it parses, the message
    is accepted. *)
Theorem ValidateReceivedRequestAddressForTransaction_parse
        (m : RequestAddressForTransaction) (reference : Z) :
  validateClockValue (RequestAddressForTransaction_Clock m) reference = nil ->
  len (TrimSpace (RequestAddressForTransaction_Value m)) <> 0 ->
  (forall e, ParseFloat (RequestAddressForTransaction_Value m) = Some e ->
     ValidateReceivedRequestAddressForTransaction m reference
     = Some (strconv_NumError e)
     /\ fails_with (ValidateReceivedRequestAddressForTransaction m reference)
                   ParseError
     /\ forall text,
         ValidateReceivedRequestAddressForTransaction m reference
         <> Some (errors_New text))
  /\ (ParseFloat (RequestAddressForTransaction_Value m) = None ->
      ValidateReceivedRequestAddressForTransaction m reference = nil).
Proof.
  intros Hclock Hv.
  unfold ValidateReceivedRequestAddressForTransaction, parseFloatErr.
  settle_guards. split.
  - intros e He. rewrite He. split; [reflexivity | split].
    + apply fails_with_Some. reflexivity.
    + intros text. discriminate.
  - intros He. rewrite He. reflexivity.
Qed.

(** ** Identifier fields *)

Lemma kind_messageID :
  kind_of (errors_New "messageID can't be empty") = Some EmptyField.
Proof. reflexivity. Qed.

Lemma kind_chatId :
  kind_of (errors_New "chatId can't be empty") = Some EmptyField.
Proof. reflexivity. Qed.

(** C7. The identifier fields are checked for a non-zero length, without
    trimming. Once the checks that come before it have passed, the Id check
    of AcceptRequestAddressForTransaction, DeclineRequestAddressForTransaction
    and DeclineRequestTransaction and the ChatId check of ChatMessage fail,
    with an EmptyField error, exactly when the field has length zero; a
    field that is not empty but blank (white space only) passes the check. *)
Theorem identifier_fields_not_trimmed :
  (forall (m : AcceptRequestAddressForTransaction) (reference : Z),
      validateClockValue (AcceptRequestAddressForTransaction_Clock m) reference
      = nil ->
      (ValidateReceivedAcceptRequestAddressForTransaction m reference
       = Some (errors_New "messageID can't be empty")
       <-> len (AcceptRequestAddressForTransaction_Id m) = 0)
      /\ (len (TrimSpace (AcceptRequestAddressForTransaction_Id m)) = 0 ->
          len (AcceptRequestAddressForTransaction_Id m) <> 0 ->
          len (TrimSpace (AcceptRequestAddressForTransaction_Address m)) <> 0 ->
          ValidateReceivedAcceptRequestAddressForTransaction m reference = nil))
  /\ (forall (m : DeclineRequestAddressForTransaction) (reference : Z),
      validateClockValue (DeclineRequestAddressForTransaction_Clock m) reference
      = nil ->
      (ValidateReceivedDeclineRequestAddressForTransaction m reference
       = Some (errors_New "messageID can't be empty")
       <-> len (DeclineRequestAddressForTransaction_Id m) = 0)
      /\ (len (TrimSpace (DeclineRequestAddressForTransaction_Id m)) = 0 ->
          len (DeclineRequestAddressForTransaction_Id m) <> 0 ->
          ValidateReceivedDeclineRequestAddressForTransaction m reference = nil))
  /\ (forall (m : DeclineRequestTransaction) (reference : Z),
      validateClockValue (DeclineRequestTransaction_Clock m) reference = nil ->
      (ValidateReceivedDeclineRequestTransaction m reference
       = Some (errors_New "messageID can't be empty")
       <-> len (DeclineRequestTransaction_Id m) = 0)
      /\ (len (TrimSpace (DeclineRequestTransaction_Id m)) = 0 ->
          len (DeclineRequestTransaction_Id m) <> 0 ->
          ValidateReceivedDeclineRequestTransaction m reference = nil))
  /\ (forall (m : ChatMessage) (reference : Z),
      validateClockValue (ChatMessage_Clock m) reference = nil ->
      Timestamp m <> 0 ->
      len (TrimSpace (Text m)) <> 0 ->
      (ValidateReceivedChatMessage m reference
       = Some (errors_New "chatId can't be empty")
       <-> len (ChatId m) = 0)
      /\ (len (TrimSpace (ChatId m)) = 0 -> len (ChatId m) <> 0 ->
          chat_enums_ok m -> ContentType m <> ChatMessage_STICKER ->
          ValidateReceivedChatMessage m reference = nil))
  /\ kind_of (errors_New "messageID can't be empty") = Some EmptyField
  /\ kind_of (errors_New "chatId can't be empty") = Some EmptyField.
Proof.
  split; [| split; [| split; [| split; [| split]]]].
  - intros m reference Hclock.
    unfold ValidateReceivedAcceptRequestAddressForTransaction. settle_guards.
    split.
    + destruct (Z.eqb_spec (len (AcceptRequestAddressForTransaction_Id m)) 0)
        as [E | N].
      * split; intros _; [exact E | reflexivity].
      * split; intros H; [| contradiction].
        destruct (len (TrimSpace (AcceptRequestAddressForTransaction_Address m))
                  =? 0); discriminate H.
    + intros _ Hid Haddr. settle_guards. reflexivity.
  - intros m reference Hclock.
    unfold ValidateReceivedDeclineRequestAddressForTransaction. settle_guards.
    split.
    + destruct (Z.eqb_spec (len (DeclineRequestAddressForTransaction_Id m)) 0)
        as [E | N].
      * split; intros _; [exact E | reflexivity].
      * split; intros H; [discriminate H | contradiction].
    + intros _ Hid. settle_guards. reflexivity.
  - intros m reference Hclock.
    unfold ValidateReceivedDeclineRequestTransaction. settle_guards.
    split.
    + destruct (Z.eqb_spec (len (DeclineRequestTransaction_Id m)) 0)
        as [E | N].
      * split; intros _; [exact E | reflexivity].
      * split; intros H; [discriminate H | contradiction].
    + intros _ Hid. settle_guards. reflexivity.
  - intros m reference Hclock Htime Htext. split.
    + unfold ValidateReceivedChatMessage. settle_guards.
      destruct (Z.eqb_spec (len (ChatId m)) 0) as [E | N].
      * split; intros _; [exact E | reflexivity].
      * split; intros H; [| contradiction]. exfalso.
        destruct (ContentType m =? ChatMessage_UNKNOWN_CONTENT_TYPE);
          [discriminate H |].
        destruct (ContentType m =? ChatMessage_TRANSACTION_COMMAND);
          [discriminate H |].
        destruct ((MessageType m =? ChatMessage_UNKNOWN_MESSAGE_TYPE)
                  || (MessageType m
                      =? ChatMessage_SYSTEM_MESSAGE_PRIVATE_GROUP));
          [discriminate H |].
        destruct (ContentType m =? ChatMessage_STICKER);
          [| discriminate H].
        destruct (Payload m); [| discriminate H].
        destruct (GetSticker m) as [sticker |]; [| discriminate H].
        destruct (len (Hash sticker) =? 0); discriminate H.
    + intros _ Hid Henums Hsticker.
      assert (Hfields : chat_fields_ok m reference)
        by (repeat split; assumption).
      rewrite (chat_after_enums _ _ Hfields Henums).
      settle_guards. reflexivity.
  - exact kind_messageID.
  - exact kind_chatId.
Qed.

(** ** All validators *)

Lemma deref_alloc (h : heap) (e : error) :
  deref (snd (alloc e h)) (fst (alloc e h)) = Some e.
Proof.
  unfold deref, alloc. cbn [fst snd].
  rewrite nth_error_app2 by apply Nat.le_refl.
  rewrite Nat.sub_diag. reflexivity.
Qed.

Lemma verdict_call (c : Call) (h : heap) : verdict (call c h) = returns c.
Proof.
  unfold verdict, call. destruct (returns c) as [e |]; cbn [fst snd].
  - apply deref_alloc.
  - reflexivity.
Qed.

(** What a call leaves in the state, given what it returns: nothing on
    success, one error object on failure. *)
Lemma call_returns (c : Call) (h : heap) :
  call c h = match returns c with
             | Some e => (Some (List.length h), (h ++ [e])%list)
             | None => (None, h)
             end.
Proof. unfold call, alloc. destruct (returns c); reflexivity. Qed.

(** Case analysis on the guards of a validator, in both embeddings. *)
Ltac both_embeddings :=
  repeat match goal with
    | |- context [if ?b then _ else _] => destruct b
    | |- context [match Payload ?m with _ => _ end] => destruct (Payload m)
    | |- context [match GetSticker ?m with _ => _ end] =>
        destruct (GetSticker m)
    | |- context [match Signature ?m with _ => _ end] =>
        destruct (Signature m)
    | |- context [match ParseFloat ?s with _ => _ end] =>
        destruct (ParseFloat s)
    | |- context [match validateClockValue ?c ?t with _ => _ end] =>
        destruct (validateClockValue c t)
    end;
  reflexivity.

Lemma st_validateClockValue_call (clock t : Z) (h : heap) :
  st_validateClockValue clock t h = call (call_validateClockValue clock t) h.
Proof.
  rewrite call_returns. cbn [returns].
  unfold st_validateClockValue, validateClockValue, return_New, ret, alloc.
  cbv zeta. both_embeddings.
Qed.

Lemma st_validateEvents_call (events : list MembershipUpdateEvent) (t : Z)
      (h : heap) :
  st_validateEvents events t h
  = match validateEvents events t with
    | Some e => (Some (List.length h), (h ++ [e])%list)
    | None => (None, h)
    end.
Proof.
  induction events as [| e rest IH]; cbn [st_validateEvents validateEvents].
  - reflexivity.
  - destruct ((ClockValue e >? t)
              && (sub64 (ClockValue e) t >? maxWhisperDriftMs)).
    + reflexivity.
    + exact IH.
Qed.

(** The two embeddings agree: a call in a state returns a fresh pointer to
    the error the pure validator returns, or nil when it returns nil. *)
Lemma exec_call (c : Call) (h : heap) : exec c h = call c h.
Proof.
  rewrite call_returns.
  destruct c; cbn [exec returns].
  - rewrite st_validateClockValue_call, call_returns. reflexivity.
  - apply st_validateEvents_call.
  - unfold st_ValidateReceivedPairInstallation,
      ValidateReceivedPairInstallation, bind.
    rewrite st_validateClockValue_call, call_returns. cbn [returns].
    unfold return_New, ret, alloc. both_embeddings.
  - unfold st_ValidateReceivedSendTransaction,
      ValidateReceivedSendTransaction, bind.
    rewrite st_validateClockValue_call, call_returns. cbn [returns].
    unfold return_New, ret, alloc. both_embeddings.
  - unfold st_ValidateReceivedRequestAddressForTransaction,
      ValidateReceivedRequestAddressForTransaction, bind.
    rewrite st_validateClockValue_call, call_returns. cbn [returns].
    unfold return_New, ret, alloc, st_ParseFloat, parseFloatErr.
    both_embeddings.
  - unfold st_ValidateReceivedRequestTransaction,
      ValidateReceivedRequestTransaction, bind.
    rewrite st_validateClockValue_call, call_returns. cbn [returns].
    unfold return_New, ret, alloc, st_ParseFloat, parseFloatErr.
    both_embeddings.
  - unfold st_ValidateReceivedAcceptRequestAddressForTransaction,
      ValidateReceivedAcceptRequestAddressForTransaction, bind.
    rewrite st_validateClockValue_call, call_returns. cbn [returns].
    unfold return_New, ret, alloc. both_embeddings.
  - unfold st_ValidateReceivedDeclineRequestAddressForTransaction,
      ValidateReceivedDeclineRequestAddressForTransaction, bind.
    rewrite st_validateClockValue_call, call_returns. cbn [returns].
    unfold return_New, ret, alloc. both_embeddings.
  - unfold st_ValidateReceivedDeclineRequestTransaction,
      ValidateReceivedDeclineRequestTransaction, bind.
    rewrite st_validateClockValue_call, call_returns. cbn [returns].
    unfold return_New, ret, alloc. both_embeddings.
  - unfold st_ValidateReceivedChatMessage,
      ValidateReceivedChatMessage, bind.
    rewrite st_validateClockValue_call, call_returns. cbn [returns].
    unfold return_New, ret, alloc. both_embeddings.
Qed.

(** A call keeps every object the state held. *)
Lemma call_keeps (c : Call) (h : heap) (a : nat) (e : error) :
  deref h a = Some e -> deref (snd (call c h)) a = Some e.
Proof.
  intros Hold. rewrite call_returns.
  destruct (returns c) as [e' |]; cbn [snd]; [| exact Hold].
  unfold deref in *. rewrite nth_error_app1; [exact Hold |].
  apply nth_error_Some. rewrite Hold. discriminate.
Qed.

(** C8. Every validator is deterministic. Run as state transformers, in
    any two states of the program, two calls of the same validator on the
    same message and the same reference timestamp return the same verdict:
    both succeed, or both fail for the same reason (each with an error
    object of its own). No call depends on the state it runs in, and none
    changes an object that state holds. *)
Theorem validators_deterministic (c : Call) (h1 h2 : heap) :
  verdict (exec c h1) = verdict (exec c h2)
  /\ (forall a e, deref h1 a = Some e ->
                  deref (snd (exec c h1)) a = Some e).
Proof.
  rewrite !exec_call. split.
  - rewrite !verdict_call. reflexivity.
  - intros a e. apply call_keeps.
Qed.

(** * Further properties of the validators *)

(** ** The clock check *)

(** Between two nonzero clocks the check is symmetric: the distance is
    taken over the integers, so neither operand is favoured. *)
Theorem validateClockValue_symmetric (clock reference : Z) :
  is_uint64 clock -> is_uint64 reference ->
  clock <> 0 -> reference <> 0 ->
  validateClockValue clock reference = validateClockValue reference clock.
Proof.
  intros Hc Hr Nc Nr.
  rewrite (validateClockValue_cases _ _ Hc Hr).
  rewrite (validateClockValue_cases _ _ Hr Hc).
  settle_guards.
  replace (reference - clock) with (- (clock - reference)) by lia.
  rewrite Z.abs_opp. reflexivity.
Qed.

(** Every [ValidateReceived*] function runs the clock check first: a
    failure of the check is the result of the call whatever the fields of
    the message are, and an accepted message has a nonzero clock within
    120000 of the timestamp. *)
Theorem clock_check_first (c : Call) (clock whisperTimestamp : Z) :
  received_clock c = Some (clock, whisperTimestamp) ->
  (forall e, validateClockValue clock whisperTimestamp = Some e ->
             returns c = Some e)
  /\ (is_uint64 clock -> is_uint64 whisperTimestamp ->
      returns c = nil ->
      clock <> 0
      /\ whisperTimestamp - 120000 <= clock <= whisperTimestamp + 120000).
Proof.
  intros Hc.
  assert (Hfirst : forall e, validateClockValue clock whisperTimestamp = Some e ->
                             returns c = Some e).
  { intros e He.
    destruct c; cbn [received_clock] in Hc; try discriminate Hc;
      injection Hc as <- <-; cbn [returns];
      [ unfold ValidateReceivedPairInstallation
      | unfold ValidateReceivedSendTransaction
      | unfold ValidateReceivedRequestAddressForTransaction
      | unfold ValidateReceivedRequestTransaction
      | unfold ValidateReceivedAcceptRequestAddressForTransaction
      | unfold ValidateReceivedDeclineRequestAddressForTransaction
      | unfold ValidateReceivedDeclineRequestTransaction
      | unfold ValidateReceivedChatMessage ];
      rewrite He; reflexivity. }
  split; [exact Hfirst |].
  intros Rc Rt Hnil.
  destruct (validateClockValue clock whisperTimestamp) as [e |] eqn:Hv.
  - rewrite (Hfirst e eq_refl) in Hnil. discriminate Hnil.
  - rewrite (validateClockValue_cases _ _ Rc Rt) in Hv.
    unfold maxWhisperDriftMs in Hv.
    destruct (Z.eqb_spec clock 0) as [E0 | N0]; [discriminate Hv |].
    rewrite Z.gtb_ltb in Hv.
    destruct (Z.ltb_spec 120000 (Z.abs (clock - whisperTimestamp)))
      as [Far | Near]; [discriminate Hv |].
    lia.
Qed.

(** ** Pairing and transactions *)

(** Split on every guard [x =? 0] of the goal. *)
Ltac split_guards :=
  repeat match goal with
    | |- context [?x =? 0] => destruct (Z.eqb_spec x 0)
    end.

(** A PairInstallation message is accepted exactly when the clock check
    passes and Name, DeviceType and InstallationId are not blank. When
    several of them are blank, the error names the first in that order. *)
Theorem ValidateReceivedPairInstallation_accepts
        (m : PairInstallation) (whisperTimestamp : Z) :
  (ValidateReceivedPairInstallation m whisperTimestamp = nil
   <-> validateClockValue (PairInstallation_Clock m) whisperTimestamp = nil
       /\ len (TrimSpace (Name m)) <> 0
       /\ len (TrimSpace (DeviceType m)) <> 0
       /\ len (TrimSpace (InstallationId m)) <> 0)
  /\ (validateClockValue (PairInstallation_Clock m) whisperTimestamp = nil ->
      len (TrimSpace (Name m)) = 0 ->
      ValidateReceivedPairInstallation m whisperTimestamp
      = Some (errors_New "name can't be empty"))
  /\ (validateClockValue (PairInstallation_Clock m) whisperTimestamp = nil ->
      len (TrimSpace (Name m)) <> 0 ->
      len (TrimSpace (DeviceType m)) = 0 ->
      ValidateReceivedPairInstallation m whisperTimestamp
      = Some (errors_New "device type can't be empty")).
Proof.
  unfold ValidateReceivedPairInstallation.
  split; [| split].
  - destruct (validateClockValue (PairInstallation_Clock m) whisperTimestamp).
    + split; [discriminate | intros (H & _); discriminate H].
    + split_guards; split; try discriminate;
        try (intros (_ & ? & ? & ?); contradiction).
      * intros _. repeat split; assumption.
      * intros _. reflexivity.
  - intros Hclock Hname. settle_guards. reflexivity.
  - intros Hclock Hname Hdevice. settle_guards. reflexivity.
Qed.

(** A SendTransaction message is accepted exactly when the clock check
    passes, the transaction hash is not blank and the signature is not nil.
    The signature is not measured: an empty, non-nil one is accepted. *)
Theorem ValidateReceivedSendTransaction_accepts
        (m : SendTransaction) (whisperTimestamp : Z) :
  (ValidateReceivedSendTransaction m whisperTimestamp = nil
   <-> validateClockValue (SendTransaction_Clock m) whisperTimestamp = nil
       /\ len (TrimSpace (TransactionHash m)) <> 0
       /\ Signature m <> None)
  /\ (validateClockValue (SendTransaction_Clock m) whisperTimestamp = nil ->
      len (TrimSpace (TransactionHash m)) <> 0 ->
      Signature m = Some [] ->
      ValidateReceivedSendTransaction m whisperTimestamp = nil).
Proof.
  unfold ValidateReceivedSendTransaction. split.
  - destruct (validateClockValue (SendTransaction_Clock m) whisperTimestamp).
    + split; [discriminate | intros (H & _); discriminate H].
    + split_guards.
      * split; [discriminate | intros (_ & ? & _); contradiction].
      * destruct (Signature m).
        -- split; intros _; [| reflexivity].
           repeat split; [assumption | discriminate].
        -- split; [discriminate | intros (_ & _ & H); contradiction].
  - intros Hclock Hhash Hsig. settle_guards. rewrite Hsig. reflexivity.
Qed.

(** The RequestTransaction validator is the RequestAddressForTransaction
    validator, on the same clock and value, with the Address check added:
    under a non-blank Address the two return the same verdict, and a
    RequestTransaction is accepted exactly when its Address is not blank and
    the other validator accepts its clock and value. *)
Theorem ValidateReceivedRequestTransaction_extends
        (m : RequestTransaction) (whisperTimestamp : Z) :
  let request :=
    {| RequestAddressForTransaction_Clock := RequestTransaction_Clock m;
       RequestAddressForTransaction_Value := RequestTransaction_Value m |} in
  (len (TrimSpace (RequestTransaction_Address m)) <> 0 ->
   ValidateReceivedRequestTransaction m whisperTimestamp
   = ValidateReceivedRequestAddressForTransaction request whisperTimestamp)
  /\ (ValidateReceivedRequestTransaction m whisperTimestamp = nil
      <-> ValidateReceivedRequestAddressForTransaction request whisperTimestamp
          = nil
          /\ len (TrimSpace (RequestTransaction_Address m)) <> 0).
Proof.
  cbv zeta.
  unfold ValidateReceivedRequestTransaction,
    ValidateReceivedRequestAddressForTransaction.
  cbn [RequestAddressForTransaction_Clock RequestAddressForTransaction_Value].
  split.
  - intros Haddr. settle_guards. reflexivity.
  - destruct (validateClockValue (RequestTransaction_Clock m) whisperTimestamp).
    + split; [discriminate | intros (H & _); discriminate H].
    + destruct (Z.eqb_spec (len (TrimSpace (RequestTransaction_Value m))) 0).
      * split; [discriminate | intros (H & _); discriminate H].
      * destruct (Z.eqb_spec
                    (len (TrimSpace (RequestTransaction_Address m))) 0).
        -- split; [discriminate | intros (_ & H); contradiction].
        -- split; [intros H; split; assumption | intros (H & _); exact H].
Qed.

(** The AcceptRequestAddressForTransaction validator is the
    DeclineRequestAddressForTransaction validator, on the same clock and
    Id, with the Address check added; the Id is checked before the
    Address. *)
Theorem ValidateReceivedAcceptRequestAddressForTransaction_extends
        (m : AcceptRequestAddressForTransaction) (whisperTimestamp : Z) :
  let decline :=
    {| DeclineRequestAddressForTransaction_Clock :=
         AcceptRequestAddressForTransaction_Clock m;
       DeclineRequestAddressForTransaction_Id :=
         AcceptRequestAddressForTransaction_Id m |} in
  (ValidateReceivedAcceptRequestAddressForTransaction m whisperTimestamp = nil
   <-> ValidateReceivedDeclineRequestAddressForTransaction
         decline whisperTimestamp = nil
       /\ len (TrimSpace (AcceptRequestAddressForTransaction_Address m)) <> 0)
  /\ (forall e,
         ValidateReceivedDeclineRequestAddressForTransaction
           decline whisperTimestamp = Some e ->
         ValidateReceivedAcceptRequestAddressForTransaction m whisperTimestamp
         = Some e).
Proof.
  cbv zeta.
  unfold ValidateReceivedAcceptRequestAddressForTransaction,
    ValidateReceivedDeclineRequestAddressForTransaction.
  cbn [DeclineRequestAddressForTransaction_Clock
       DeclineRequestAddressForTransaction_Id].
  destruct (validateClockValue (AcceptRequestAddressForTransaction_Clock m)
                               whisperTimestamp).
  - split.
    + split; [discriminate | intros (H & _); discriminate H].
    + intros e' H. exact H.
  - destruct (Z.eqb_spec (len (AcceptRequestAddressForTransaction_Id m)) 0).
    + split.
      * split; [discriminate | intros (H & _); discriminate H].
      * intros e' H. exact H.
    + split.
      * destruct (Z.eqb_spec
                    (len (TrimSpace
                            (AcceptRequestAddressForTransaction_Address m))) 0).
        -- split; [discriminate | intros (_ & H); contradiction].
        -- split; [intros _; split; [reflexivity | assumption]
                  | intros _; reflexivity].
      * intros e' H. discriminate H.
Qed.

(** ** Chat messages, in full *)

(** A chat message is accepted exactly when the clock, Timestamp, Text and
    ChatId checks pass, the content type and the message type are none of
    the four refused values and, if the content type is STICKER, the
    payload holds a sticker with a non-empty hash. *)
Theorem ValidateReceivedChatMessage_accepts
        (m : ChatMessage) (whisperTimestamp : Z) :
  ValidateReceivedChatMessage m whisperTimestamp = nil
  <-> chat_fields_ok m whisperTimestamp
      /\ chat_enums_ok m
      /\ (ContentType m = ChatMessage_STICKER ->
          exists sticker,
            GetSticker m = Some sticker /\ len (Hash sticker) <> 0).
Proof.
  split.
  - intros Hnil.
    assert (Hfields : chat_fields_ok m whisperTimestamp).
    { unfold ValidateReceivedChatMessage in Hnil. unfold chat_fields_ok.
      destruct (validateClockValue (ChatMessage_Clock m) whisperTimestamp);
        [discriminate Hnil |].
      destruct (Z.eqb_spec (Timestamp m) 0); [discriminate Hnil |].
      destruct (Z.eqb_spec (len (TrimSpace (Text m))) 0);
        [discriminate Hnil |].
      destruct (Z.eqb_spec (len (ChatId m)) 0); [discriminate Hnil |].
      repeat split; assumption. }
    rewrite (chat_after_fields _ _ Hfields) in Hnil.
    destruct (Z.eqb_spec (ContentType m) ChatMessage_UNKNOWN_CONTENT_TYPE);
      [discriminate Hnil |].
    destruct (Z.eqb_spec (ContentType m) ChatMessage_TRANSACTION_COMMAND);
      [discriminate Hnil |].
    destruct (Z.eqb_spec (MessageType m) ChatMessage_UNKNOWN_MESSAGE_TYPE);
      [discriminate Hnil |].
    destruct (Z.eqb_spec (MessageType m)
                         ChatMessage_SYSTEM_MESSAGE_PRIVATE_GROUP);
      [discriminate Hnil |].
    cbn [orb] in Hnil.
    split; [exact Hfields |]. split; [repeat split; assumption |].
    intros Hsticker. rewrite (proj2 (Z.eqb_eq _ _) Hsticker) in Hnil.
    destruct (Payload m); [| discriminate Hnil].
    destruct (GetSticker m) as [sticker |]; [| discriminate Hnil].
    exists sticker. split; [reflexivity |].
    destruct (Z.eqb_spec (len (Hash sticker)) 0);
      [discriminate Hnil | assumption].
  - intros (Hfields & Henums & Hsticker).
    rewrite (chat_after_enums _ _ Hfields Henums).
    destruct (Z.eqb_spec (ContentType m) ChatMessage_STICKER) as [E | N];
      [| reflexivity].
    destruct (Hsticker E) as (sticker & Hget & Hhash).
    rewrite Hget. settle_guards.
    unfold GetSticker in Hget.
    destruct (Payload m); [reflexivity | discriminate Hget].
Qed.

(** The payload of a chat message whose content type is not STICKER has no
    influence on the result, be it an acceptance or any of the errors. *)
Theorem ValidateReceivedChatMessage_ignores_payload
        (m : ChatMessage) (payload : option isChatMessage_Payload)
        (whisperTimestamp : Z) :
  ContentType m <> ChatMessage_STICKER ->
  ValidateReceivedChatMessage
    {| ChatMessage_Clock := ChatMessage_Clock m;
       Timestamp := Timestamp m;
       Text := Text m;
       ChatId := ChatId m;
       MessageType := MessageType m;
       ContentType := ContentType m;
       Payload := payload |} whisperTimestamp
  = ValidateReceivedChatMessage m whisperTimestamp.
Proof.
  intros Hsticker. unfold ValidateReceivedChatMessage.
  cbn [ChatMessage_Clock Timestamp Text ChatId MessageType ContentType].
  settle_guards. reflexivity.
Qed.

(** ** Membership updates, as sequences of events *)

Lemma validateEvents_app (events1 events2 : list MembershipUpdateEvent)
      (timeNowMs : Z) :
  validateEvents (events1 ++ events2)%list timeNowMs =
    try validateEvents events1 timeNowMs ;;
    validateEvents events2 timeNowMs.
Proof.
  induction events1 as [| e rest IH]; cbn [validateEvents app].
  - reflexivity.
  - destruct ((ClockValue e >? timeNowMs)
              && (sub64 (ClockValue e) timeNowMs >? maxWhisperDriftMs));
      [reflexivity | exact IH].
Qed.

(** The only error of the event loop. *)
Lemma validateEvents_error (events : list MembershipUpdateEvent)
      (timeNowMs : Z) (e : error) :
  validateEvents events timeNowMs = Some e -> e = errClockDrift.
Proof.
  induction events as [| ev rest IH]; cbn [validateEvents].
  - discriminate.
  - destruct ((ClockValue ev >? timeNowMs)
              && (sub64 (ClockValue ev) timeNowMs >? maxWhisperDriftMs)).
    + intros H. injection H as <-. reflexivity.
    + exact IH.
Qed.

(** The events of two membership updates put in one message are accepted
    exactly when each update is, and the verdict on them is the verdict on
    the first update that fails. *)
Theorem ValidateMembershipUpdateMessage_concat
        (m1 m2 : MembershipUpdateMessage) (timeNowMs : Z) :
  let both := {| Events := (Events m1 ++ Events m2)%list |} in
  (ValidateMembershipUpdateMessage both timeNowMs = nil
   <-> ValidateMembershipUpdateMessage m1 timeNowMs = nil
       /\ ValidateMembershipUpdateMessage m2 timeNowMs = nil)
  /\ ValidateMembershipUpdateMessage both timeNowMs
     = match ValidateMembershipUpdateMessage m1 timeNowMs with
       | Some e => Some e
       | None => ValidateMembershipUpdateMessage m2 timeNowMs
       end.
Proof.
  cbv zeta. unfold ValidateMembershipUpdateMessage. cbn [Events].
  rewrite validateEvents_app.
  destruct (validateEvents (Events m1) timeNowMs).
  - split; [| reflexivity].
    split; [discriminate | intros (H & _); discriminate H].
  - split; [| reflexivity].
    split; [intros H; split; [reflexivity | exact H] | intros (_ & H); exact H].
Qed.

(** The verdict on a membership update does not depend on the order of its
    events. *)
Theorem ValidateMembershipUpdateMessage_order_irrelevant
        (m1 m2 : MembershipUpdateMessage) (timeNowMs : Z) :
  Permutation (Events m1) (Events m2) ->
  ValidateMembershipUpdateMessage m1 timeNowMs
  = ValidateMembershipUpdateMessage m2 timeNowMs.
Proof.
  unfold ValidateMembershipUpdateMessage. intros Hperm.
  induction Hperm as [| e l l' _ IH | e1 e2 l | l l' l'' _ IH1 _ IH2];
    cbn [validateEvents].
  - reflexivity.
  - rewrite IH. reflexivity.
  - destruct ((ClockValue e1 >? timeNowMs)
              && (sub64 (ClockValue e1) timeNowMs >? maxWhisperDriftMs));
      destruct ((ClockValue e2 >? timeNowMs)
                && (sub64 (ClockValue e2) timeNowMs >? maxWhisperDriftMs));
      reflexivity.
  - rewrite IH1. exact IH2.
Qed.

(** A membership update accepted at some time stays accepted at every
    later time: the check bounds the clocks from above only. *)
Theorem ValidateMembershipUpdateMessage_later
        (m : MembershipUpdateMessage) (timeNowMs later : Z) :
  is_uint64 timeNowMs -> is_uint64 later ->
  Forall (fun e => is_uint64 (ClockValue e)) (Events m) ->
  timeNowMs <= later ->
  ValidateMembershipUpdateMessage m timeNowMs = nil ->
  ValidateMembershipUpdateMessage m later = nil.
Proof.
  unfold ValidateMembershipUpdateMessage. intros Ht Hl Hev Hle Hnil.
  destruct (validateEvents_cases (Events m) timeNowMs Ht Hev)
    as [[_ Hv] | [Hnex _]]; [rewrite Hv in Hnil; discriminate Hnil |].
  destruct (validateEvents_cases (Events m) later Hl Hev)
    as [[Hex _] | [_ Hv]]; [| exact Hv].
  exfalso. apply Hnex. apply Exists_exists in Hex.
  destruct Hex as (e & Hin & Hgt & Hd).
  apply Exists_exists. exists e. split; [exact Hin |].
  unfold far_ahead. lia.
Qed.

(** The membership check is weaker than the clock check: a membership
    update whose event clocks all pass [validateClockValue] against the
    time is accepted. *)
Theorem ValidateMembershipUpdateMessage_weaker
        (m : MembershipUpdateMessage) (timeNowMs : Z) :
  is_uint64 timeNowMs ->
  Forall (fun e => is_uint64 (ClockValue e)) (Events m) ->
  Forall (fun e => validateClockValue (ClockValue e) timeNowMs = nil)
         (Events m) ->
  ValidateMembershipUpdateMessage m timeNowMs = nil.
Proof.
  unfold ValidateMembershipUpdateMessage. intros Ht Hev Hclocks.
  destruct (validateEvents_cases (Events m) timeNowMs Ht Hev)
    as [[Hex _] | [_ Hv]]; [| exact Hv].
  exfalso. apply Exists_exists in Hex.
  destruct Hex as (e & Hin & Hgt & Hd).
  rewrite Forall_forall in Hev, Hclocks.
  specialize (Hev e Hin). specialize (Hclocks e Hin).
  rewrite (validateClockValue_cases _ _ Hev Ht) in Hclocks.
  unfold maxWhisperDriftMs in Hclocks.
  destruct (Z.eqb_spec (ClockValue e) 0); [discriminate Hclocks |].
  rewrite Z.gtb_ltb in Hclocks.
  destruct (Z.ltb_spec 120000 (Z.abs (ClockValue e - timeNowMs)));
    [discriminate Hclocks | lia].
Qed.

(** At a time within 120000 of the largest [uint64], no membership update
    can be refused: no clock is far enough ahead. *)
Theorem ValidateMembershipUpdateMessage_top
        (m : MembershipUpdateMessage) (timeNowMs : Z) :
  is_uint64 timeNowMs ->
  Forall (fun e => is_uint64 (ClockValue e)) (Events m) ->
  uint64_modulus - 1 - 120000 <= timeNowMs ->
  ValidateMembershipUpdateMessage m timeNowMs = nil.
Proof.
  unfold ValidateMembershipUpdateMessage. intros Ht Hev Htop.
  destruct (validateEvents_cases (Events m) timeNowMs Ht Hev)
    as [[Hex _] | [_ Hv]]; [| exact Hv].
  exfalso. apply Exists_exists in Hex.
  destruct Hex as (e & Hin & Hgt & Hd).
  rewrite Forall_forall in Hev. specialize (Hev e Hin).
  unfold is_uint64 in Hev. lia.
Qed.

End Validators.

(** * The validators on the scenarios

    The parameters are instantiated with the reference parser and the
    numbers of the protobuf declaration. *)

Abbreviation chatValidator :=
  (ValidateReceivedChatMessage
     protobuf.ChatMessage_UNKNOWN_CONTENT_TYPE
     protobuf.ChatMessage_TRANSACTION_COMMAND
     protobuf.ChatMessage_STICKER
     protobuf.ChatMessage_UNKNOWN_MESSAGE_TYPE
     protobuf.ChatMessage_SYSTEM_MESSAGE_PRIVATE_GROUP).

Lemma TrimSpace_examples :
  TrimSpace "  a b  " = "a b" /\ TrimSpace "  " = "" /\ TrimSpace "" = ""
  /\ TrimSpace "abc" = "abc".
Proof. repeat split. Qed.

Lemma ParseFloat_decimal_examples :
  ParseFloat_decimal "1.5" = None
  /\ ParseFloat_decimal "-12e+3" = None
  /\ ParseFloat_decimal "abc"
     = Some {| Func := "ParseFloat"; Num := "abc"; Err := "invalid syntax" |}
  /\ ParseFloat_decimal "1.5x" <> None
  /\ ParseFloat_decimal "" <> None.
Proof. repeat split; discriminate. Qed.

Lemma is_uint64_1000 : is_uint64 1000.
Proof. unfold is_uint64, uint64_modulus. lia. Defined.

Lemma validateClockValue_spec_witness :
  is_uint64 1000000 /\ is_uint64 1120000
  /\ (fails_with (validateClockValue 1000000 1120000) ZeroClock
        <-> 1000000 = 0)
  /\ (fails_with (validateClockValue 1000000 1120000) ExcessiveDrift
        <-> 1000000 <> 0 /\ Z.abs (1000000 - 1120000) > 120000)
  /\ (validateClockValue 1000000 1120000 = nil
        <-> 1000000 <> 0 /\ Z.abs (1000000 - 1120000) <= 120000).
Proof.
  assert (H1 : is_uint64 1000000) by (unfold is_uint64, uint64_modulus; lia).
  assert (H2 : is_uint64 1120000) by (unfold is_uint64, uint64_modulus; lia).
  split; [exact H1 | split; [exact H2 |]].
  exact (validateClockValue_spec 1000000 1120000 H1 H2).
Defined.

Lemma validateClockValue_threshold :
  validateClockValue 1000000 1120000 = nil
  /\ validateClockValue 1000000 1120001 = Some errClockDrift
  /\ validateClockValue 1120001 1000000 = Some errClockDrift
  /\ validateClockValue 1 (2 ^ 64 - 1) = Some errClockDrift
  /\ validateClockValue 0 0 = Some errZeroClock.
Proof. repeat split. Qed.

Lemma ValidateMembershipUpdateMessage_spec_witness :
  is_uint64 10000000
  /\ Forall (fun e => is_uint64 (ClockValue e)) (Events membership_mixed)
  /\ (fails_with (ValidateMembershipUpdateMessage membership_mixed 10000000)
                 ExcessiveDrift
        <-> Exists (far_ahead 10000000) (Events membership_mixed))
  /\ (ValidateMembershipUpdateMessage membership_mixed 10000000 = nil
        <-> ~ Exists (far_ahead 10000000) (Events membership_mixed))
  /\ (Forall (fun e => ClockValue e <= 10000000) (Events membership_mixed) ->
      ValidateMembershipUpdateMessage membership_mixed 10000000 = nil)
  /\ ~ fails_with (ValidateMembershipUpdateMessage membership_mixed 10000000)
                  ZeroClock.
Proof.
  assert (H1 : is_uint64 10000000) by (unfold is_uint64, uint64_modulus; lia).
  assert (H2 : Forall (fun e => is_uint64 (ClockValue e))
                      (Events membership_mixed)).
  { unfold membership_mixed. cbn [Events].
    repeat constructor; cbn [ClockValue]; unfold uint64_modulus; lia. }
  split; [exact H1 | split; [exact H2 |]].
  exact (ValidateMembershipUpdateMessage_spec membership_mixed 10000000 H1 H2).
Defined.

Lemma ValidateMembershipUpdateMessage_scenarios :
  ValidateMembershipUpdateMessage membership_mixed 10000000
  = Some errClockDrift
  /\ ValidateMembershipUpdateMessage membership_mixed 10080000 = nil
  /\ ValidateMembershipUpdateMessage
       {| Events := [ {| ClockValue := 0 |} ] |} 10000000 = nil.
Proof. repeat split. Qed.

Lemma ValidateMembershipUpdateMessage_no_events_witness :
  Events membership_empty = []
  /\ ValidateMembershipUpdateMessage membership_empty 0 = nil.
Proof.
  split; [reflexivity |].
  apply (ValidateMembershipUpdateMessage_no_events membership_empty 0).
  reflexivity.
Defined.

Lemma chat_text_fields_ok : chat_fields_ok chat_text 1000.
Proof.
  unfold chat_fields_ok. repeat split; vm_compute; discriminate.
Defined.

Lemma chat_sticker_fields_ok (payload : option isChatMessage_Payload) :
  chat_fields_ok (chat_sticker payload) 1000.
Proof.
  unfold chat_fields_ok. repeat split; vm_compute; discriminate.
Defined.

Lemma chat_sticker_enums_ok (payload : option isChatMessage_Payload) :
  chat_enums_ok protobuf.ChatMessage_UNKNOWN_CONTENT_TYPE
                protobuf.ChatMessage_TRANSACTION_COMMAND
                protobuf.ChatMessage_UNKNOWN_MESSAGE_TYPE
                protobuf.ChatMessage_SYSTEM_MESSAGE_PRIVATE_GROUP
                (chat_sticker payload).
Proof.
  unfold chat_enums_ok. repeat split; vm_compute; discriminate.
Defined.

Lemma ValidateReceivedChatMessage_InvalidEnum_witness :
  chat_fields_ok chat_text 1000
  /\ (fails_with (chatValidator chat_text 1000) InvalidEnum
      <-> ContentType chat_text = protobuf.ChatMessage_UNKNOWN_CONTENT_TYPE
          \/ ContentType chat_text = protobuf.ChatMessage_TRANSACTION_COMMAND
          \/ MessageType chat_text = protobuf.ChatMessage_UNKNOWN_MESSAGE_TYPE
          \/ MessageType chat_text
             = protobuf.ChatMessage_SYSTEM_MESSAGE_PRIVATE_GROUP).
Proof.
  split; [exact chat_text_fields_ok |].
  apply ValidateReceivedChatMessage_InvalidEnum. exact chat_text_fields_ok.
Defined.

Lemma ValidateReceivedChatMessage_enum_scenarios :
  chatValidator chat_text 1000 = nil
  /\ chatValidator
       {| ChatMessage_Clock := 1000; Timestamp := 1000; Text := "hello";
          ChatId := "c1"; MessageType := protobuf.ChatMessage_ONE_TO_ONE;
          ContentType := protobuf.ChatMessage_TRANSACTION_COMMAND;
          Payload := None |} 1000
     = Some (errors_New
               "can't receive request address for transaction from others")
  /\ chatValidator
       {| ChatMessage_Clock := 1000; Timestamp := 1000; Text := "hello";
          ChatId := "c1";
          MessageType := protobuf.ChatMessage_SYSTEM_MESSAGE_PRIVATE_GROUP;
          ContentType := protobuf.ChatMessage_TEXT_PLAIN;
          Payload := None |} 1000
     = Some (errors_New "unknown message type")
  /\ chatValidator
       {| ChatMessage_Clock := 1000; Timestamp := 1000; Text := "hello";
          ChatId := "c1"; MessageType := protobuf.ChatMessage_ONE_TO_ONE;
          ContentType := 99; Payload := None |} 1000
     = nil
  /\ chatValidator
       {| ChatMessage_Clock := 1000; Timestamp := 1000; Text := "";
          ChatId := "c1"; MessageType := protobuf.ChatMessage_ONE_TO_ONE;
          ContentType := protobuf.ChatMessage_TEXT_PLAIN;
          Payload := None |} 1000
     = Some (errors_New "text can't be empty").
Proof. repeat split. Qed.

Lemma ValidateReceivedChatMessage_payload_optional_witness :
  chat_fields_ok chat_text 1000
  /\ chat_enums_ok protobuf.ChatMessage_UNKNOWN_CONTENT_TYPE
                   protobuf.ChatMessage_TRANSACTION_COMMAND
                   protobuf.ChatMessage_UNKNOWN_MESSAGE_TYPE
                   protobuf.ChatMessage_SYSTEM_MESSAGE_PRIVATE_GROUP
                   chat_text
  /\ ContentType chat_text <> protobuf.ChatMessage_STICKER
  /\ Payload chat_text = None
  /\ chatValidator chat_text 1000 = nil.
Proof.
  assert (He : chat_enums_ok protobuf.ChatMessage_UNKNOWN_CONTENT_TYPE
                             protobuf.ChatMessage_TRANSACTION_COMMAND
                             protobuf.ChatMessage_UNKNOWN_MESSAGE_TYPE
                             protobuf.ChatMessage_SYSTEM_MESSAGE_PRIVATE_GROUP
                             chat_text)
    by (unfold chat_enums_ok; repeat split; vm_compute; discriminate).
  assert (Hs : ContentType chat_text <> protobuf.ChatMessage_STICKER)
    by (vm_compute; discriminate).
  split; [exact chat_text_fields_ok |].
  split; [exact He |]. split; [exact Hs |]. split; [reflexivity |].
  exact (ValidateReceivedChatMessage_payload_optional
           _ _ _ _ _ chat_text 1000 chat_text_fields_ok He Hs).
Defined.

(** C4, as stated, fails: the message without a payload and the message
    whose payload has no sticker pass the same preceding checks and are
    rejected for one and the same reason, not for distinct ones. *)
Lemma sticker_absent_layers_same_reason :
  Payload chat_sticker_no_payload = None
  /\ Payload chat_sticker_no_sticker <> None
  /\ GetSticker chat_sticker_no_sticker = None
  /\ chatValidator chat_sticker_no_payload 1000
     = Some (errors_New "no sticker content")
  /\ chatValidator chat_sticker_no_sticker 1000
     = Some (errors_New "no sticker content")
  /\ ~ (chatValidator chat_sticker_no_payload 1000
        <> chatValidator chat_sticker_no_sticker 1000).
Proof.
  repeat split; try discriminate.
  intros H. apply H. reflexivity.
Qed.

Lemma ValidateReceivedChatMessage_sticker_witness :
  chat_fields_ok chat_sticker_no_hash 1000
  /\ chat_enums_ok protobuf.ChatMessage_UNKNOWN_CONTENT_TYPE
                   protobuf.ChatMessage_TRANSACTION_COMMAND
                   protobuf.ChatMessage_UNKNOWN_MESSAGE_TYPE
                   protobuf.ChatMessage_SYSTEM_MESSAGE_PRIVATE_GROUP
                   chat_sticker_no_hash
  /\ ContentType chat_sticker_no_hash = protobuf.ChatMessage_STICKER
  /\ GetSticker chat_sticker_no_hash = Some {| Hash := "" |}
  /\ len (Hash {| Hash := "" |}) = 0
  /\ chatValidator chat_sticker_no_hash 1000
     = Some (errors_New "sticker hash not set").
Proof.
  split; [apply chat_sticker_fields_ok |].
  split; [apply chat_sticker_enums_ok |].
  split; [reflexivity |]. split; [reflexivity |]. split; [reflexivity |].
  destruct (ValidateReceivedChatMessage_sticker
              protobuf.ChatMessage_UNKNOWN_CONTENT_TYPE
              protobuf.ChatMessage_TRANSACTION_COMMAND
              protobuf.ChatMessage_STICKER
              protobuf.ChatMessage_UNKNOWN_MESSAGE_TYPE
              protobuf.ChatMessage_SYSTEM_MESSAGE_PRIVATE_GROUP
              chat_sticker_no_hash 1000
              (chat_sticker_fields_ok _) (chat_sticker_enums_ok _)
              eq_refl) as (_ & _ & Hhash & _).
  apply (Hhash {| Hash := "" |}); reflexivity.
Defined.

Lemma ValidateReceivedChatMessage_sticker_scenarios :
  chatValidator chat_sticker_no_payload 1000
  = Some (errors_New "no sticker content")
  /\ chatValidator chat_sticker_no_sticker 1000
     = Some (errors_New "no sticker content")
  /\ chatValidator (chat_sticker (Some ChatMessage_OtherPayload)) 1000
     = Some (errors_New "no sticker content")
  /\ chatValidator chat_sticker_no_hash 1000
     = Some (errors_New "sticker hash not set")
  /\ chatValidator chat_sticker_complete 1000 = nil.
Proof. repeat split. Qed.

(** C5, as stated, fails: the Value of this message is not blank and does
    not parse, its Address is blank, and the error returned is the one of
    the Address, not the parse failure. *)
Lemma RequestTransaction_blank_address_before_parse :
  validateClockValue (RequestTransaction_Clock request_abc_no_address) 1000
  = nil
  /\ len (TrimSpace (RequestTransaction_Value request_abc_no_address)) <> 0
  /\ len (TrimSpace (RequestTransaction_Address request_abc_no_address)) = 0
  /\ parseFloatErr ParseFloat_decimal
       (RequestTransaction_Value request_abc_no_address)
     = Some (strconv_NumError
               {| Func := "ParseFloat"; Num := "abc";
                  Err := "invalid syntax" |})
  /\ ValidateReceivedRequestTransaction ParseFloat_decimal
       request_abc_no_address 1000
     = Some (errors_New "address can't be empty")
  /\ ValidateReceivedRequestTransaction ParseFloat_decimal
       request_abc_no_address 1000
     <> parseFloatErr ParseFloat_decimal
          (RequestTransaction_Value request_abc_no_address).
Proof.
  repeat split; vm_compute; discriminate.
Qed.

Lemma ValidateReceivedRequestTransaction_order_witness :
  validateClockValue (RequestTransaction_Clock request_abc_no_address) 1000
  = nil
  /\ len (TrimSpace (RequestTransaction_Value request_abc_no_address)) <> 0
  /\ len (TrimSpace (RequestTransaction_Address request_abc_no_address)) = 0
  /\ ValidateReceivedRequestTransaction ParseFloat_decimal
       request_abc_no_address 1000
     = Some (errors_New "address can't be empty").
Proof.
  assert (Hv : len (TrimSpace
                      (RequestTransaction_Value request_abc_no_address)) <> 0)
    by (vm_compute; discriminate).
  split; [reflexivity |]. split; [exact Hv |]. split; [reflexivity |].
  destruct (ValidateReceivedRequestTransaction_order ParseFloat_decimal
              request_abc_no_address 1000 eq_refl) as (_ & Haddr & _).
  apply Haddr; [exact Hv | reflexivity].
Defined.

Lemma ValidateReceivedRequestTransaction_scenarios :
  ValidateReceivedRequestTransaction ParseFloat_decimal
    {| RequestTransaction_Clock := 1000; RequestTransaction_Address := "0xA";
       RequestTransaction_Value := "  " |} 1000
  = Some (errors_New "value can't be empty")
  /\ ValidateReceivedRequestTransaction ParseFloat_decimal
       {| RequestTransaction_Clock := 1000; RequestTransaction_Address := "0xA";
          RequestTransaction_Value := "abc" |} 1000
     = Some (strconv_NumError
               {| Func := "ParseFloat"; Num := "abc";
                  Err := "invalid syntax" |})
  /\ ValidateReceivedRequestTransaction ParseFloat_decimal
       {| RequestTransaction_Clock := 1000; RequestTransaction_Address := "0xA";
          RequestTransaction_Value := "1.5" |} 1000
     = nil.
Proof. repeat split. Qed.

Lemma ValidateReceivedRequestAddressForTransaction_parse_witness :
  validateClockValue
    (RequestAddressForTransaction_Clock request_address_abc) 1000 = nil
  /\ len (TrimSpace (RequestAddressForTransaction_Value request_address_abc))
     <> 0
  /\ ParseFloat_decimal (RequestAddressForTransaction_Value request_address_abc)
     = Some {| Func := "ParseFloat"; Num := "abc"; Err := "invalid syntax" |}
  /\ ValidateReceivedRequestAddressForTransaction ParseFloat_decimal
       request_address_abc 1000
     = Some (strconv_NumError
               {| Func := "ParseFloat"; Num := "abc";
                  Err := "invalid syntax" |}).
Proof.
  assert (Hv : len (TrimSpace (RequestAddressForTransaction_Value
                                 request_address_abc)) <> 0)
    by (vm_compute; discriminate).
  split; [reflexivity |]. split; [exact Hv |]. split; [reflexivity |].
  destruct (ValidateReceivedRequestAddressForTransaction_parse
              ParseFloat_decimal request_address_abc 1000 eq_refl Hv)
    as (Hfail & _).
  destruct (Hfail _ eq_refl) as (Herr & _).
  exact Herr.
Defined.

Lemma ValidateReceivedRequestAddressForTransaction_scenarios :
  ValidateReceivedRequestAddressForTransaction ParseFloat_decimal
    request_address_abc 1000
  = Some (strconv_NumError
            {| Func := "ParseFloat"; Num := "abc"; Err := "invalid syntax" |})
  /\ ValidateReceivedRequestAddressForTransaction ParseFloat_decimal
       request_address_1_5 1000
     = nil.
Proof. repeat split. Qed.

Lemma identifier_fields_not_trimmed_witness :
  validateClockValue (DeclineRequestTransaction_Clock decline_blank_id) 1000
  = nil
  /\ len (TrimSpace (DeclineRequestTransaction_Id decline_blank_id)) = 0
  /\ len (DeclineRequestTransaction_Id decline_blank_id) <> 0
  /\ ValidateReceivedDeclineRequestTransaction decline_blank_id 1000 = nil.
Proof.
  assert (Hid : len (DeclineRequestTransaction_Id decline_blank_id) <> 0)
    by (vm_compute; discriminate).
  split; [reflexivity |]. split; [reflexivity |]. split; [exact Hid |].
  destruct (identifier_fields_not_trimmed
              protobuf.ChatMessage_UNKNOWN_CONTENT_TYPE
              protobuf.ChatMessage_TRANSACTION_COMMAND
              protobuf.ChatMessage_STICKER
              protobuf.ChatMessage_UNKNOWN_MESSAGE_TYPE
              protobuf.ChatMessage_SYSTEM_MESSAGE_PRIVATE_GROUP)
    as (_ & _ & Hdecline & _).
  destruct (Hdecline decline_blank_id 1000 eq_refl) as (_ & Hblank).
  apply Hblank; [reflexivity | exact Hid].
Defined.

Lemma identifier_fields_scenarios :
  ValidateReceivedDeclineRequestTransaction
    {| DeclineRequestTransaction_Clock := 1000;
       DeclineRequestTransaction_Id := "" |} 1000
  = Some (errors_New "messageID can't be empty")
  /\ ValidateReceivedDeclineRequestAddressForTransaction
       {| DeclineRequestAddressForTransaction_Clock := 1000;
          DeclineRequestAddressForTransaction_Id := "  " |} 1000
     = nil
  /\ ValidateReceivedAcceptRequestAddressForTransaction
       {| AcceptRequestAddressForTransaction_Clock := 1000;
          AcceptRequestAddressForTransaction_Id := "  ";
          AcceptRequestAddressForTransaction_Address := "0xA" |} 1000
     = nil
  /\ ValidateReceivedAcceptRequestAddressForTransaction
       {| AcceptRequestAddressForTransaction_Clock := 1000;
          AcceptRequestAddressForTransaction_Id := "id";
          AcceptRequestAddressForTransaction_Address := "  " |} 1000
     = Some (errors_New "address can't be empty")
  /\ chatValidator chat_blank_id 1000 = nil.
Proof. repeat split. Qed.

(** Two failing calls of one validator return two error objects and one
    verdict. *)
Lemma two_calls_two_objects :
  let c := call_validateClockValue 0 1000 in
  let first := exec ParseFloat_decimal
                 protobuf.ChatMessage_UNKNOWN_CONTENT_TYPE
                 protobuf.ChatMessage_TRANSACTION_COMMAND
                 protobuf.ChatMessage_STICKER
                 protobuf.ChatMessage_UNKNOWN_MESSAGE_TYPE
                 protobuf.ChatMessage_SYSTEM_MESSAGE_PRIVATE_GROUP c [] in
  let second := exec ParseFloat_decimal
                  protobuf.ChatMessage_UNKNOWN_CONTENT_TYPE
                  protobuf.ChatMessage_TRANSACTION_COMMAND
                  protobuf.ChatMessage_STICKER
                  protobuf.ChatMessage_UNKNOWN_MESSAGE_TYPE
                  protobuf.ChatMessage_SYSTEM_MESSAGE_PRIVATE_GROUP c
                  (snd first) in
  fst first = Some 0%nat /\ fst second = Some 1%nat
  /\ verdict first = Some errZeroClock
  /\ verdict second = Some errZeroClock.
Proof. repeat split. Qed.

(** * The further properties on concrete messages *)

Abbreviation returnsRef :=
  (returns ParseFloat_decimal
     protobuf.ChatMessage_UNKNOWN_CONTENT_TYPE
     protobuf.ChatMessage_TRANSACTION_COMMAND
     protobuf.ChatMessage_STICKER
     protobuf.ChatMessage_UNKNOWN_MESSAGE_TYPE
     protobuf.ChatMessage_SYSTEM_MESSAGE_PRIVATE_GROUP).

Lemma is_uint64_small (x : Z) : 0 <= x <= 100000000 -> is_uint64 x.
Proof. unfold is_uint64, uint64_modulus. lia. Defined.

Lemma validateClockValue_symmetric_witness :
  is_uint64 1000 /\ is_uint64 500000 /\ 1000 <> 0 /\ 500000 <> 0
  /\ validateClockValue 1000 500000 = validateClockValue 500000 1000.
Proof.
  assert (H1 : is_uint64 1000) by (apply is_uint64_small; lia).
  assert (H2 : is_uint64 500000) by (apply is_uint64_small; lia).
  assert (N1 : 1000 <> 0) by discriminate.
  assert (N2 : 500000 <> 0) by discriminate.
  repeat (split; [assumption |]).
  exact (validateClockValue_symmetric 1000 500000 H1 H2 N1 N2).
Defined.

Lemma clock_check_first_witness :
  received_clock
    (call_PairInstallation
       {| PairInstallation_Clock := 0; InstallationId := "";
          DeviceType := ""; Name := "" |} 1000)
  = Some (0, 1000)
  /\ validateClockValue 0 1000 = Some errZeroClock
  /\ returnsRef
       (call_PairInstallation
          {| PairInstallation_Clock := 0; InstallationId := "";
             DeviceType := ""; Name := "" |} 1000)
     = Some errZeroClock.
Proof.
  split; [reflexivity |]. split; [reflexivity |].
  destruct (clock_check_first ParseFloat_decimal
              protobuf.ChatMessage_UNKNOWN_CONTENT_TYPE
              protobuf.ChatMessage_TRANSACTION_COMMAND
              protobuf.ChatMessage_STICKER
              protobuf.ChatMessage_UNKNOWN_MESSAGE_TYPE
              protobuf.ChatMessage_SYSTEM_MESSAGE_PRIVATE_GROUP
              (call_PairInstallation
                 {| PairInstallation_Clock := 0; InstallationId := "";
                    DeviceType := ""; Name := "" |} 1000)
              0 1000 eq_refl) as (Hfirst & _).
  apply Hfirst. reflexivity.
Defined.

Lemma ValidateReceivedPairInstallation_accepts_witness :
  validateClockValue 1000 1000 = nil
  /\ len (TrimSpace "dev") <> 0
  /\ len (TrimSpace "  ") = 0
  /\ ValidateReceivedPairInstallation
       {| PairInstallation_Clock := 1000; InstallationId := "";
          DeviceType := "  "; Name := "dev" |} 1000
     = Some (errors_New "device type can't be empty").
Proof.
  assert (Hn : len (TrimSpace "dev") <> 0) by (vm_compute; discriminate).
  split; [reflexivity |]. split; [exact Hn |]. split; [reflexivity |].
  destruct (ValidateReceivedPairInstallation_accepts
              {| PairInstallation_Clock := 1000; InstallationId := "";
                 DeviceType := "  "; Name := "dev" |} 1000)
    as (_ & _ & Hdevice).
  apply Hdevice; [reflexivity | exact Hn | reflexivity].
Defined.

Lemma ValidateReceivedPairInstallation_scenario :
  ValidateReceivedPairInstallation
    {| PairInstallation_Clock := 1000; InstallationId := "abc";
       DeviceType := "mobile"; Name := "dev" |} 1000 = nil.
Proof. reflexivity. Qed.

Lemma ValidateReceivedSendTransaction_accepts_witness :
  validateClockValue 1000 1000 = nil
  /\ len (TrimSpace "0xhash") <> 0
  /\ ValidateReceivedSendTransaction
       {| SendTransaction_Clock := 1000; TransactionHash := "0xhash";
          Signature := Some [] |} 1000
     = nil.
Proof.
  assert (Hh : len (TrimSpace "0xhash") <> 0) by (vm_compute; discriminate).
  split; [reflexivity |]. split; [exact Hh |].
  destruct (ValidateReceivedSendTransaction_accepts
              {| SendTransaction_Clock := 1000; TransactionHash := "0xhash";
                 Signature := Some [] |} 1000)
    as (_ & Hempty).
  apply Hempty; [reflexivity | exact Hh | reflexivity].
Defined.

Lemma ValidateReceivedRequestTransaction_extends_witness :
  len (TrimSpace "0xA") <> 0
  /\ ValidateReceivedRequestTransaction ParseFloat_decimal
       {| RequestTransaction_Clock := 1000;
          RequestTransaction_Address := "0xA";
          RequestTransaction_Value := "abc" |} 1000
     = ValidateReceivedRequestAddressForTransaction ParseFloat_decimal
         {| RequestAddressForTransaction_Clock := 1000;
            RequestAddressForTransaction_Value := "abc" |} 1000.
Proof.
  assert (Ha : len (TrimSpace "0xA") <> 0) by (vm_compute; discriminate).
  split; [exact Ha |].
  destruct (ValidateReceivedRequestTransaction_extends ParseFloat_decimal
              {| RequestTransaction_Clock := 1000;
                 RequestTransaction_Address := "0xA";
                 RequestTransaction_Value := "abc" |} 1000)
    as (Hsame & _).
  exact (Hsame Ha).
Defined.

Lemma ValidateReceivedAcceptRequestAddressForTransaction_extends_witness :
  ValidateReceivedDeclineRequestAddressForTransaction
    {| DeclineRequestAddressForTransaction_Clock := 1000;
       DeclineRequestAddressForTransaction_Id := "" |} 1000
  = Some (errors_New "messageID can't be empty")
  /\ ValidateReceivedAcceptRequestAddressForTransaction
       {| AcceptRequestAddressForTransaction_Clock := 1000;
          AcceptRequestAddressForTransaction_Id := "";
          AcceptRequestAddressForTransaction_Address := "" |} 1000
     = Some (errors_New "messageID can't be empty").
Proof.
  split; [reflexivity |].
  destruct (ValidateReceivedAcceptRequestAddressForTransaction_extends
              {| AcceptRequestAddressForTransaction_Clock := 1000;
                 AcceptRequestAddressForTransaction_Id := "";
                 AcceptRequestAddressForTransaction_Address := "" |} 1000)
    as (_ & Herr).
  apply Herr. reflexivity.
Defined.

Lemma ValidateReceivedChatMessage_accepts_witness :
  chat_fields_ok chat_sticker_complete 1000
  /\ chat_enums_ok protobuf.ChatMessage_UNKNOWN_CONTENT_TYPE
                   protobuf.ChatMessage_TRANSACTION_COMMAND
                   protobuf.ChatMessage_UNKNOWN_MESSAGE_TYPE
                   protobuf.ChatMessage_SYSTEM_MESSAGE_PRIVATE_GROUP
                   chat_sticker_complete
  /\ GetSticker chat_sticker_complete = Some {| Hash := "0xbeef" |}
  /\ len (Hash {| Hash := "0xbeef" |}) <> 0
  /\ chatValidator chat_sticker_complete 1000 = nil.
Proof.
  assert (Hh : len (Hash {| Hash := "0xbeef" |}) <> 0)
    by (vm_compute; discriminate).
  split; [apply chat_sticker_fields_ok |].
  split; [apply chat_sticker_enums_ok |].
  split; [reflexivity |]. split; [exact Hh |].
  apply (ValidateReceivedChatMessage_accepts
           protobuf.ChatMessage_UNKNOWN_CONTENT_TYPE
           protobuf.ChatMessage_TRANSACTION_COMMAND
           protobuf.ChatMessage_STICKER
           protobuf.ChatMessage_UNKNOWN_MESSAGE_TYPE
           protobuf.ChatMessage_SYSTEM_MESSAGE_PRIVATE_GROUP
           chat_sticker_complete 1000).
  split; [apply chat_sticker_fields_ok |].
  split; [apply chat_sticker_enums_ok |].
  intros _. exists {| Hash := "0xbeef" |}. split; [reflexivity | exact Hh].
Defined.

Lemma ValidateReceivedChatMessage_ignores_payload_witness :
  ContentType chat_text <> protobuf.ChatMessage_STICKER
  /\ chatValidator
       {| ChatMessage_Clock := ChatMessage_Clock chat_text;
          Timestamp := Timestamp chat_text;
          Text := Text chat_text;
          ChatId := ChatId chat_text;
          MessageType := MessageType chat_text;
          ContentType := ContentType chat_text;
          Payload := Some (ChatMessage_Sticker None) |} 1000
     = chatValidator chat_text 1000.
Proof.
  assert (Hs : ContentType chat_text <> protobuf.ChatMessage_STICKER)
    by (vm_compute; discriminate).
  split; [exact Hs |].
  exact (ValidateReceivedChatMessage_ignores_payload
           protobuf.ChatMessage_UNKNOWN_CONTENT_TYPE
           protobuf.ChatMessage_TRANSACTION_COMMAND
           protobuf.ChatMessage_STICKER
           protobuf.ChatMessage_UNKNOWN_MESSAGE_TYPE
           protobuf.ChatMessage_SYSTEM_MESSAGE_PRIVATE_GROUP
           chat_text (Some (ChatMessage_Sticker None)) 1000 Hs).
Defined.

Lemma membership_mixed_uint64 :
  Forall (fun e => is_uint64 (ClockValue e)) (Events membership_mixed).
Proof.
  unfold membership_mixed. cbn [Events].
  repeat constructor; cbn [ClockValue]; unfold uint64_modulus; lia.
Defined.

Lemma ValidateMembershipUpdateMessage_order_irrelevant_witness :
  Permutation
    (Events membership_mixed)
    (Events {| Events := [ {| ClockValue := 1000 |};
                           {| ClockValue := 0 |};
                           {| ClockValue := 10200000 |} ] |})
  /\ ValidateMembershipUpdateMessage membership_mixed 10000000
     = ValidateMembershipUpdateMessage
         {| Events := [ {| ClockValue := 1000 |};
                        {| ClockValue := 0 |};
                        {| ClockValue := 10200000 |} ] |} 10000000.
Proof.
  assert (Hp : Permutation
                 (Events membership_mixed)
                 (Events {| Events := [ {| ClockValue := 1000 |};
                                        {| ClockValue := 0 |};
                                        {| ClockValue := 10200000 |} ] |}))
    by (cbn [Events membership_mixed]; apply perm_swap).
  split; [exact Hp |].
  exact (ValidateMembershipUpdateMessage_order_irrelevant _ _ 10000000 Hp).
Defined.

Lemma ValidateMembershipUpdateMessage_later_witness :
  is_uint64 10080000 /\ is_uint64 10090000
  /\ Forall (fun e => is_uint64 (ClockValue e)) (Events membership_mixed)
  /\ 10080000 <= 10090000
  /\ ValidateMembershipUpdateMessage membership_mixed 10080000 = nil
  /\ ValidateMembershipUpdateMessage membership_mixed 10090000 = nil.
Proof.
  assert (H1 : is_uint64 10080000) by (apply is_uint64_small; lia).
  assert (H2 : is_uint64 10090000) by (apply is_uint64_small; lia).
  assert (Hle : 10080000 <= 10090000) by lia.
  split; [exact H1 |]. split; [exact H2 |].
  split; [exact membership_mixed_uint64 |].
  split; [exact Hle |]. split; [reflexivity |].
  exact (ValidateMembershipUpdateMessage_later
           membership_mixed 10080000 10090000 H1 H2
           membership_mixed_uint64 Hle eq_refl).
Defined.

Lemma ValidateMembershipUpdateMessage_weaker_witness :
  is_uint64 1000
  /\ Forall (fun e => is_uint64 (ClockValue e))
            (Events {| Events := [ {| ClockValue := 1000 |};
                                   {| ClockValue := 900 |} ] |})
  /\ Forall (fun e => validateClockValue (ClockValue e) 1000 = nil)
            (Events {| Events := [ {| ClockValue := 1000 |};
                                   {| ClockValue := 900 |} ] |})
  /\ ValidateMembershipUpdateMessage
       {| Events := [ {| ClockValue := 1000 |};
                      {| ClockValue := 900 |} ] |} 1000 = nil.
Proof.
  assert (H1 : is_uint64 1000) by (apply is_uint64_small; lia).
  assert (H2 : Forall (fun e => is_uint64 (ClockValue e))
                      (Events {| Events := [ {| ClockValue := 1000 |};
                                             {| ClockValue := 900 |} ] |}))
    by (cbn [Events]; repeat constructor; cbn [ClockValue];
        unfold uint64_modulus; lia).
  assert (H3 : Forall (fun e => validateClockValue (ClockValue e) 1000 = nil)
                      (Events {| Events := [ {| ClockValue := 1000 |};
                                             {| ClockValue := 900 |} ] |}))
    by (cbn [Events]; repeat constructor).
  split; [exact H1 |]. split; [exact H2 |]. split; [exact H3 |].
  exact (ValidateMembershipUpdateMessage_weaker _ 1000 H1 H2 H3).
Defined.

Lemma ValidateMembershipUpdateMessage_top_witness :
  is_uint64 (uint64_modulus - 1 - 120000)
  /\ Forall (fun e => is_uint64 (ClockValue e))
            (Events {| Events := [ {| ClockValue := uint64_modulus - 1 |} ] |})
  /\ uint64_modulus - 1 - 120000 <= uint64_modulus - 1 - 120000
  /\ ValidateMembershipUpdateMessage
       {| Events := [ {| ClockValue := uint64_modulus - 1 |} ] |}
       (uint64_modulus - 1 - 120000) = nil.
Proof.
  assert (H1 : is_uint64 (uint64_modulus - 1 - 120000))
    by (unfold is_uint64, uint64_modulus; lia).
  assert (H2 : Forall (fun e => is_uint64 (ClockValue e))
                 (Events {| Events := [ {| ClockValue := uint64_modulus - 1 |} ] |}))
    by (cbn [Events]; repeat constructor; cbn [ClockValue];
        unfold uint64_modulus; lia).
  assert (H3 : uint64_modulus - 1 - 120000 <= uint64_modulus - 1 - 120000)
    by lia.
  split; [exact H1 |]. split; [exact H2 |]. split; [exact H3 |].
  exact (ValidateMembershipUpdateMessage_top _ _ H1 H2 H3).
Defined.

Lemma ValidateMembershipUpdateMessage_top_edge :
  ValidateMembershipUpdateMessage
    {| Events := [ {| ClockValue := uint64_modulus - 1 |} ] |}
    (uint64_modulus - 1 - 120001) = Some errClockDrift.
Proof. reflexivity. Qed.
